(** * LR35902 bus-timing core: driver, bus transactions and dispatch table

    A shallow embedding of [src/gb/lr35902/cpu_funcs.hpp] and
    [src/gb/lr35902/cpu_table.hpp].

    The C++ code mutates a [cpu_t] through a pointer; here every function
    takes the record and returns the updated one.  [cpu->pins] points at the
    pin set of the enclosing [lr35902_t]; the record holds the pointee, since
    within a call the core is the only writer.  Fixed-width integers are [Z]
    with the wrap-around written out. *)

From Stdlib Require Import ZArith List Bool Lia.
Import ListNotations.
Local Open Scope Z_scope.
Set Implicit Arguments.

(** ** Fixed-width integers *)

Definition u8 (x : Z) : Z := x mod 256.
Definition u16 (x : Z) : Z := x mod 65536.

(** Modelled from the spec: [macros.hpp] is not among the sources.  The spec
    gives every region as a closed interval, so [RANGE(v, l, h)] is the test
    [l <= v && v <= h]. *)
Definition RANGE (v l h : Z) : bool := (l <=? v) && (v <=? h).

(** The three regions of the address space that the spec names. *)
Definition in_rom (addr : Z) : bool := RANGE addr 0x0000 0x7fff.
Definition in_ram (addr : Z) : bool := RANGE addr 0xa000 0xfdff.
Definition in_hram (addr : Z) : bool := RANGE addr 0xfe00 0xffff.

(** ** Pin set *)

Record pins_t : Type := mkPins {
  a : Z;        (* uint16_t: A0-A14, bit 15 carries A15 *)
  d : Z;        (* uint8_t data bus *)
  rd : bool;
  wr : bool;
  cs : bool;
  phi : bool
}.

Definition set_a (p : pins_t) (v : Z) : pins_t :=
  {| a := v; d := d p; rd := rd p; wr := wr p; cs := cs p; phi := phi p |}.
Definition set_d (p : pins_t) (v : Z) : pins_t :=
  {| a := a p; d := v; rd := rd p; wr := wr p; cs := cs p; phi := phi p |}.
Definition set_rd (p : pins_t) (v : bool) : pins_t :=
  {| a := a p; d := d p; rd := v; wr := wr p; cs := cs p; phi := phi p |}.
Definition set_wr (p : pins_t) (v : bool) : pins_t :=
  {| a := a p; d := d p; rd := rd p; wr := v; cs := cs p; phi := phi p |}.
Definition set_cs (p : pins_t) (v : bool) : pins_t :=
  {| a := a p; d := d p; rd := rd p; wr := wr p; cs := v; phi := phi p |}.
Definition set_phi (p : pins_t) (v : bool) : pins_t :=
  {| a := a p; d := d p; rd := rd p; wr := wr p; cs := cs p; phi := v |}.

(** The A15 line is bit 15 of the address pins. *)
Definition A15 (p : pins_t) : bool := Z.testbit (a p) 15.

(** ** Enumerations *)

Inductive cpu_state_t : Type := ST_FETCH | ST_EXECUTE | ST_TEST.

(** Modelled from the spec: [cpu_instructions.hpp] is not among the sources.
    The driver only compares a handler's result with [IS_LAST_CYCLE]; the spec
    names the other status "more cycles remain". *)
Inductive instruction_state_t : Type := IS_MORE_CYCLES | IS_LAST_CYCLE.

Definition is_last_cycle (s : instruction_state_t) : bool :=
  match s with IS_LAST_CYCLE => true | IS_MORE_CYCLES => false end.

(** ** Dispatch table (cpu_table.hpp) *)

(** One constructor per handler function named in the table. *)
Inductive cpu_instruction_t : Type :=
| nop | ld_rr_nn | ld_r_n | ld_nn_sp | ld_a_bc | ld_a_de | ld_hli_a | ld_a_hli
| ld_hld_a | ld_hl_n | ld_a_hld | ld_r_r | ld_r_hl | ld_hl_r
| pop_bc | jp_nn | push_bc | pop_de | push_de
| ldh_n_a | pop_hl | ldh_c_a | push_hl | ld_nn_a
| ldh_a_n | pop_af | ldh_a_c | push_af | ld_sp_hl | ld_a_nn.

Definition instruction_table : list cpu_instruction_t := [
  (* 0X *)
  nop;      ld_rr_nn; nop;      nop;      nop;      nop;      ld_r_n;   nop;
  ld_nn_sp; nop;      ld_a_bc;  nop;      nop;      nop;      ld_r_n;   nop;
  (* 1X *)
  nop;      ld_rr_nn; nop;      nop;      nop;      nop;      ld_r_n;   nop;
  nop;      nop;      ld_a_de;  nop;      nop;      nop;      ld_r_n;   nop;
  (* 2X *)
  nop;      ld_rr_nn; ld_hli_a; nop;      nop;      nop;      ld_r_n;   nop;
  nop;      nop;      ld_a_hli; nop;      nop;      nop;      ld_r_n;   nop;
  (* 3X *)
  nop;      ld_rr_nn; ld_hld_a; nop;      nop;      nop;      ld_hl_n;  nop;
  nop;      nop;      ld_a_hld; nop;      nop;      nop;      ld_r_n;   nop;
  (* 4X *)
  ld_r_r;   ld_r_r;   ld_r_r;   ld_r_r;   ld_r_r;   ld_r_r;   ld_r_hl;  ld_r_r;
  ld_r_r;   ld_r_r;   ld_r_r;   ld_r_r;   ld_r_r;   ld_r_r;   ld_r_hl;  ld_r_r;
  (* 5X *)
  ld_r_r;   ld_r_r;   ld_r_r;   ld_r_r;   ld_r_r;   ld_r_r;   ld_r_hl;  ld_r_r;
  ld_r_r;   ld_r_r;   ld_r_r;   ld_r_r;   ld_r_r;   ld_r_r;   ld_r_hl;  ld_r_r;
  (* 6X *)
  ld_r_r;   ld_r_r;   ld_r_r;   ld_r_r;   ld_r_r;   ld_r_r;   ld_r_hl;  ld_r_r;
  ld_r_r;   ld_r_r;   ld_r_r;   ld_r_r;   ld_r_r;   ld_r_r;   ld_r_hl;  ld_r_r;
  (* 7X *)
  ld_hl_r;  ld_hl_r;  ld_hl_r;  ld_hl_r;  ld_hl_r;  ld_hl_r;  nop;      ld_hl_r;
  ld_r_r;   ld_r_r;   ld_r_r;   ld_r_r;   ld_r_r;   ld_r_r;   ld_r_hl;  ld_r_r;
  (* 8X *)
  nop;      nop;      nop;      nop;      nop;      nop;      nop;      nop;
  nop;      nop;      nop;      nop;      nop;      nop;      nop;      nop;
  (* 9X *)
  nop;      nop;      nop;      nop;      nop;      nop;      nop;      nop;
  nop;      nop;      nop;      nop;      nop;      nop;      nop;      nop;
  (* aX *)
  nop;      nop;      nop;      nop;      nop;      nop;      nop;      nop;
  nop;      nop;      nop;      nop;      nop;      nop;      nop;      nop;
  (* bX *)
  nop;      nop;      nop;      nop;      nop;      nop;      nop;      nop;
  nop;      nop;      nop;      nop;      nop;      nop;      nop;      nop;
  (* cX *)
  nop;      pop_bc;   nop;      jp_nn;    nop;      push_bc;  nop;      nop;
  nop;      nop;      nop;      nop;      nop;      nop;      nop;      nop;
  (* dX *)
  nop;      pop_de;   nop;      nop;      nop;      push_de;  nop;      nop;
  nop;      nop;      nop;      nop;      nop;      nop;      nop;      nop;
  (* eX *)
  ldh_n_a;  pop_hl;   ldh_c_a;  nop;      nop;      push_hl;  nop;      nop;
  nop;      nop;      ld_nn_a;  nop;      nop;      nop;      nop;      nop;
  (* fX *)
  ldh_a_n;  pop_af;   ldh_a_c;  nop;      nop;      push_af;  nop;      nop;
  nop;      ld_sp_hl; ld_a_nn;  nop;      nop;      nop;      nop;      nop
].

(** [instruction_table[op]]: an index past the end of the array has no
    entry. *)
Definition table_lookup (op : Z) : option cpu_instruction_t :=
  if op <? 0 then None else nth_error instruction_table (Z.to_nat op).

(** ** CPU core state *)

Section Core.

(** [cpu_struct.hpp] and [lr35902_struct.hpp] are not among the sources.  The
    fields the driver names are modelled with the widths the spec gives them;
    everything else in [cpu_t] (register file, handler-private state) is the
    parameter [R], with [R0] its all-zero value, and the bus arbiters are the
    opaque type [bus_set]. *)
Variables (R bus_set : Type) (R0 : R).

Record lr35902_t : Type := mkLr35902 {
  lr_pins : pins_t;
  lr_main_bus_set : bus_set;
  lr_vram_bus_set : bus_set
}.

Record cpu_t : Type := mkCpu {
  pins : pins_t;                       (* pins_t*: the pointee *)
  main_bus_set : option bus_set;       (* pointer, None when null *)
  vram_bus_set : option bus_set;
  state : cpu_state_t;
  read_ongoing : bool;
  write_ongoing : bool;
  a_latch : Z;                         (* uint16_t *)
  d_latch : Z;                         (* uint8_t *)
  ck_half_cycle : Z;                   (* uint8_t *)
  pc : Z;                              (* uint16_t *)
  instruction_latch : Z;               (* uint8_t *)
  regs : R
}.

Definition set_pins (c : cpu_t) (v : pins_t) : cpu_t :=
  mkCpu v (main_bus_set c) (vram_bus_set c) (state c) (read_ongoing c)
        (write_ongoing c) (a_latch c) (d_latch c) (ck_half_cycle c) (pc c)
        (instruction_latch c) (regs c).
Definition set_state (c : cpu_t) (v : cpu_state_t) : cpu_t :=
  mkCpu (pins c) (main_bus_set c) (vram_bus_set c) v (read_ongoing c)
        (write_ongoing c) (a_latch c) (d_latch c) (ck_half_cycle c) (pc c)
        (instruction_latch c) (regs c).
Definition set_read_ongoing (c : cpu_t) (v : bool) : cpu_t :=
  mkCpu (pins c) (main_bus_set c) (vram_bus_set c) (state c) v
        (write_ongoing c) (a_latch c) (d_latch c) (ck_half_cycle c) (pc c)
        (instruction_latch c) (regs c).
Definition set_write_ongoing (c : cpu_t) (v : bool) : cpu_t :=
  mkCpu (pins c) (main_bus_set c) (vram_bus_set c) (state c) (read_ongoing c)
        v (a_latch c) (d_latch c) (ck_half_cycle c) (pc c)
        (instruction_latch c) (regs c).
Definition set_a_latch (c : cpu_t) (v : Z) : cpu_t :=
  mkCpu (pins c) (main_bus_set c) (vram_bus_set c) (state c) (read_ongoing c)
        (write_ongoing c) v (d_latch c) (ck_half_cycle c) (pc c)
        (instruction_latch c) (regs c).
Definition set_d_latch (c : cpu_t) (v : Z) : cpu_t :=
  mkCpu (pins c) (main_bus_set c) (vram_bus_set c) (state c) (read_ongoing c)
        (write_ongoing c) (a_latch c) v (ck_half_cycle c) (pc c)
        (instruction_latch c) (regs c).
Definition set_ck_half_cycle (c : cpu_t) (v : Z) : cpu_t :=
  mkCpu (pins c) (main_bus_set c) (vram_bus_set c) (state c) (read_ongoing c)
        (write_ongoing c) (a_latch c) (d_latch c) v (pc c)
        (instruction_latch c) (regs c).
Definition set_pc (c : cpu_t) (v : Z) : cpu_t :=
  mkCpu (pins c) (main_bus_set c) (vram_bus_set c) (state c) (read_ongoing c)
        (write_ongoing c) (a_latch c) (d_latch c) (ck_half_cycle c) v
        (instruction_latch c) (regs c).
Definition set_instruction_latch (c : cpu_t) (v : Z) : cpu_t :=
  mkCpu (pins c) (main_bus_set c) (vram_bus_set c) (state c) (read_ongoing c)
        (write_ongoing c) (a_latch c) (d_latch c) (ck_half_cycle c) (pc c)
        v (regs c).

(** ** Initializers *)

(** [memset] clears every field of [cpu_t]; the previous contents play no
    part, so only the enclosing [lr35902_t] is an argument.  The idle bus
    state is written through [cpu->pins], i.e. into [lr35902->pins]; its [d]
    and [phi] members are not assigned. *)
Definition cpu_init (lr35902 : lr35902_t) : cpu_t :=
  let p := lr_pins lr35902 in
  let p := set_rd p true in
  let p := set_wr p true in
  let p := set_a p 0x8000 in
  let p := set_cs p true in
  {| pins := p;
     main_bus_set := Some (lr_main_bus_set lr35902);
     vram_bus_set := Some (lr_vram_bus_set lr35902);
     state := ST_FETCH;
     read_ongoing := false;
     write_ongoing := false;
     a_latch := 0;
     d_latch := 0;
     ck_half_cycle := 0;
     pc := 0;
     instruction_latch := 0;
     regs := R0 |}.

(** The [uint16_t] and [uint8_t] parameters truncate their arguments. *)
Definition cpu_init_read (c : cpu_t) (addr : Z) : cpu_t :=
  let c := set_read_ongoing c true in
  set_a_latch c (u16 addr).

Definition cpu_init_write (c : cpu_t) (addr data : Z) : cpu_t :=
  let c := set_write_ongoing c true in
  let c := set_a_latch c (u16 addr) in
  set_d_latch c (u8 data).

(** ** Clock divider *)

Definition cpu_update_clocks (c : cpu_t) : cpu_t :=
  let c := set_ck_half_cycle c (u8 (ck_half_cycle c + 1)) in
  let c := set_ck_half_cycle c (ck_half_cycle c mod 8) in
  set_pins c
    (set_phi (pins c) (Z.land (Z.shiftr (ck_half_cycle c) 2) 1 =? 0)).

(** ** Bus transactions *)

Definition cpu_handle_write (c : cpu_t) : bool * cpu_t :=
  let rom := RANGE (a_latch c) 0x0000 0x7fff in
  let ram := RANGE (a_latch c) 0xa000 0xfdff in
  match ck_half_cycle c with
  | 0 =>
      let p := set_wr (pins c) true in
      let p := set_rd p false in
      let p := set_a p (Z.lor (a p) 0x8000) in
      let p := set_cs p true in
      (true, set_pins c p)
  | 1 =>
      let p := pins c in
      let p := if RANGE (a_latch c) 0x0000 0x7fff
                  || RANGE (a_latch c) 0xa000 0xfdff
               then set_rd p true else p in
      let p := set_a p (Z.land (a p) 0x8000) in
      let p := set_a p (Z.lor (a p) (Z.land (a_latch c) 0x7fff)) in
      (true, set_pins c p)
  | 2 =>
      let p := pins c in
      let p := if RANGE (a_latch c) 0x0000 0x7fff
               then set_a p (Z.land (a p) 0x7fff)
               else if RANGE (a_latch c) 0xa000 0xfdff
                    then set_cs p false
                    else p in
      (true, set_pins c p)
  | 3 =>
      let p := pins c in
      let p := if RANGE (a_latch c) 0x0000 0x7fff
                  || RANGE (a_latch c) 0xa000 0xfdff
               then set_d (set_wr p false) (d_latch c)
               else p in
      (true, set_pins c p)
  | 6 => (true, set_pins c (set_wr (pins c) true))
  | 7 => (false, set_write_ongoing c false)
  | _ => (true, c)
  end.

(** [dest] is passed by reference in the source.  Here the caller passes the
    byte [dest] holds and gets back the byte it holds afterwards; the function
    never reads or writes the destination in any other way. *)
Definition cpu_handle_read (c : cpu_t) (dest : Z) : bool * cpu_t * Z :=
  match ck_half_cycle c with
  | 0 =>
      let p := set_wr (pins c) true in
      let p := set_rd p false in
      let p := set_a p (Z.lor (a p) 0x8000) in
      let p := set_cs p true in
      (true, set_pins c p, dest)
  | 1 =>
      let p := pins c in
      let p := set_a p (Z.land (a p) 0x8000) in
      let p := set_a p (Z.lor (a p) (Z.land (a_latch c) 0x7fff)) in
      (true, set_pins c p, dest)
  | 2 =>
      let p := pins c in
      let p := if RANGE (a_latch c) 0x0000 0x7fff
               then set_a p (Z.land (a p) 0x7fff)
               else if RANGE (a_latch c) 0xa000 0xfdff
                    then set_cs p false
                    else p in
      (true, set_pins c p, dest)
  | 6 => (true, c, d (pins c))
  | 7 => (false, set_read_ongoing c false, dest)
  | _ => (true, c, dest)
  end.

(** ** Fetch/execute driver *)

(** Modelled from the spec: [cpu_instructions.hpp] is not among the sources.
    A handler takes the core and returns its completion status; since it is
    given [cpu_t*], it may change any field, the pin set included. *)
Variable run_instruction :
  cpu_instruction_t -> cpu_t -> instruction_state_t * cpu_t.

(** [instruction_table[cpu->instruction_latch]].  The latch is a [uint8_t],
    so the index is one of the 256 entries and the default is never used
    (see [dispatch_lookup]). *)
Definition dispatch (op : Z) : cpu_instruction_t :=
  nth (Z.to_nat op) instruction_table nop.

(** The calls the driver makes during one tick, in program order. *)
Inductive call : Type :=
| Call_instruction (op : Z) (h : cpu_instruction_t)
| Call_init_read (addr : Z)
| Call_handle_read
| Call_update_clocks.

(** The opcode fetch, written out twice in the source (lines 180-186 and
    194-200): begin a read at [pc++] unless one is in flight, step it with
    [&cpu->instruction_latch] as destination, and enter [ST_EXECUTE] when it
    reports completion. *)
Definition opcode_fetch (c : cpu_t) : list call * cpu_t :=
  let '(l, c) :=
    if negb (read_ongoing c)
    then ([Call_init_read (pc c)],
          cpu_init_read (set_pc c (u16 (pc c + 1))) (pc c))
    else ([], c) in
  let '(continues, c, dest) := cpu_handle_read c (instruction_latch c) in
  let c := set_instruction_latch c dest in
  (l ++ [Call_handle_read],
   if negb continues then set_state c ST_EXECUTE else c).

Definition cpu_clock_calls (c : cpu_t) : list call * cpu_t :=
  let '(l, c) :=
    match state c with
    | ST_FETCH => opcode_fetch c
    | ST_EXECUTE =>
        let h := dispatch (instruction_latch c) in
        let '(st, c1) := run_instruction h c in
        let called := [Call_instruction (instruction_latch c) h] in
        if is_last_cycle st
        then let '(l, c2) := opcode_fetch c1 in (called ++ l, c2)
        else (called, c1)
    | ST_TEST => ([], c)
    end in
  (l ++ [Call_update_clocks], cpu_update_clocks c).

Definition cpu_clock (c : cpu_t) : cpu_t := snd (cpu_clock_calls c).

(** ** Driving the core *)

(** One tick of a transaction on its own: step it, then advance the clock
    divider, as [cpu_clock] does around every step. *)
Definition read_tick (s : cpu_t * Z) : cpu_t * Z :=
  let '(_, c, dest) := cpu_handle_read (fst s) (snd s) in
  (cpu_update_clocks c, dest).

Definition write_tick (c : cpu_t) : cpu_t :=
  cpu_update_clocks (snd (cpu_handle_write c)).

Fixpoint read_ticks (n : nat) (s : cpu_t * Z) : cpu_t * Z :=
  match n with
  | O => s
  | S k => read_tick (read_ticks k s)
  end.

Fixpoint write_ticks (n : nat) (c : cpu_t) : cpu_t :=
  match n with
  | O => c
  | S k => write_tick (write_ticks k c)
  end.

(** What the other bus participants do to the pin set before tick [k]. *)
Variable bus : nat -> pins_t -> pins_t.

(** [n] calls of the tick entry point, the bus acting before each. *)
Fixpoint clock_ticks (n : nat) (c : cpu_t) : cpu_t :=
  match n with
  | O => c
  | S k =>
      let c := clock_ticks k c in
      cpu_clock (set_pins c (bus k (pins c)))
  end.

(** * Properties *)

(** ** Regions *)

Lemma in_rom_u16 (addr : Z) : in_rom addr = true -> u16 addr = addr.
Proof.
  unfold in_rom, RANGE, u16. intros H.
  apply andb_true_iff in H. destruct H as [Hl Hh].
  apply Z.leb_le in Hl. apply Z.leb_le in Hh.
  apply Z.mod_small. lia.
Qed.

Lemma in_ram_u16 (addr : Z) : in_ram addr = true -> u16 addr = addr.
Proof.
  unfold in_ram, RANGE, u16. intros H.
  apply andb_true_iff in H. destruct H as [Hl Hh].
  apply Z.leb_le in Hl. apply Z.leb_le in Hh.
  apply Z.mod_small. lia.
Qed.

Lemma in_hram_u16 (addr : Z) : in_hram addr = true -> u16 addr = addr.
Proof.
  unfold in_hram, RANGE, u16. intros H.
  apply andb_true_iff in H. destruct H as [Hl Hh].
  apply Z.leb_le in Hl. apply Z.leb_le in Hh.
  apply Z.mod_small. lia.
Qed.

Lemma in_ram_not_rom (addr : Z) : in_ram addr = true -> in_rom addr = false.
Proof.
  unfold in_ram, in_rom, RANGE. intros H.
  apply andb_true_iff in H. destruct H as [Hl _]. apply Z.leb_le in Hl.
  apply andb_false_iff. right. apply Z.leb_gt. lia.
Qed.

Lemma in_hram_outside (addr : Z) :
  in_hram addr = true -> in_rom addr = false /\ in_ram addr = false.
Proof.
  unfold in_hram, in_ram, in_rom, RANGE. intros H.
  apply andb_true_iff in H. destruct H as [Hl _]. apply Z.leb_le in Hl.
  split; apply andb_false_iff; right; apply Z.leb_gt; lia.
Qed.

(** ** Dispatch table *)

Lemma instruction_table_length : length instruction_table = 256%nat.
Proof. reflexivity. Qed.

Lemma dispatch_lookup (op : Z) :
  0 <= op <= 255 -> table_lookup op = Some (dispatch op).
Proof.
  intros Hop. unfold table_lookup, dispatch.
  destruct (Z.ltb_spec op 0) as [Hneg | _]; [lia |].
  apply nth_error_nth'. rewrite instruction_table_length. lia.
Qed.

(** C9: the dispatch table has exactly 256 entries, and indexing it with any
    opcode byte 0x00..0xFF yields an entry, which is one of the handlers the
    table names (never a missing or null slot). *)
Theorem dispatch_table_complete :
  length instruction_table = 256%nat /\
  forall op : Z, 0 <= op <= 255 ->
    exists h : cpu_instruction_t,
      table_lookup op = Some h /\ In h instruction_table.
Proof.
  split; [exact instruction_table_length |].
  intros op Hop. exists (dispatch op). split.
  - now apply dispatch_lookup.
  - unfold dispatch. apply nth_In. rewrite instruction_table_length. lia.
Qed.

(** ** Initializers *)

(** C7: right after [cpu_init] every core field is zero (flags false) and the
    top-level state is [ST_FETCH]; on the pin set both strobes are inactive
    (true), chip-select is idle-high and A15, bit 15 of the address pins, is
    high. *)
Theorem cpu_init_idle (lr35902 : lr35902_t) :
  let c := cpu_init lr35902 in
  (state c = ST_FETCH /\
   pc c = 0 /\ instruction_latch c = 0 /\ a_latch c = 0 /\ d_latch c = 0 /\
   ck_half_cycle c = 0 /\ read_ongoing c = false /\ write_ongoing c = false /\
   regs c = R0) /\
  (rd (pins c) = true /\ wr (pins c) = true /\ cs (pins c) = true /\
   A15 (pins c) = true).
Proof.
  cbv zeta. unfold cpu_init, A15. simpl.
  repeat split; reflexivity.
Qed.

(** C10: [cpu_init_read] changes only [read_ongoing] and [a_latch], and
    [cpu_init_write] only [write_ongoing], [a_latch] and [d_latch]; the pin
    set and every other core field are left as they were. *)
Theorem cpu_init_transfer_frame (c : cpu_t) (addr data : Z) :
  (let c' := cpu_init_read c addr in
   read_ongoing c' = true /\ a_latch c' = u16 addr /\
   pins c' = pins c /\
   main_bus_set c' = main_bus_set c /\ vram_bus_set c' = vram_bus_set c /\
   state c' = state c /\ write_ongoing c' = write_ongoing c /\
   d_latch c' = d_latch c /\ ck_half_cycle c' = ck_half_cycle c /\
   pc c' = pc c /\ instruction_latch c' = instruction_latch c /\
   regs c' = regs c) /\
  (let c' := cpu_init_write c addr data in
   write_ongoing c' = true /\ a_latch c' = u16 addr /\ d_latch c' = u8 data /\
   pins c' = pins c /\
   main_bus_set c' = main_bus_set c /\ vram_bus_set c' = vram_bus_set c /\
   state c' = state c /\ read_ongoing c' = read_ongoing c /\
   ck_half_cycle c' = ck_half_cycle c /\
   pc c' = pc c /\ instruction_latch c' = instruction_latch c /\
   regs c' = regs c).
Proof.
  destruct c as [p mb vb st ro wo al dl hc pcv il r].
  split; cbv zeta; unfold cpu_init_read, cpu_init_write; simpl;
    repeat split; reflexivity.
Qed.

(** ** One step of a transaction *)

(** Case analysis on the half-cycle a [switch] branches on. *)
Ltac switch_cases :=
  repeat match goal with
         | |- context [match ?x with _ => _ end] => is_var x; destruct x
         end.

Lemma set_pins_same (c : cpu_t) : set_pins c (pins c) = c.
Proof. destruct c; reflexivity. Qed.

Lemma cpu_handle_read_continues (c : cpu_t) (dest : Z) :
  fst (fst (cpu_handle_read c dest)) = negb (ck_half_cycle c =? 7).
Proof.
  unfold cpu_handle_read. destruct (ck_half_cycle c) as [|p|p];
    switch_cases; reflexivity.
Qed.

Lemma cpu_handle_write_continues (c : cpu_t) :
  fst (cpu_handle_write c) = negb (ck_half_cycle c =? 7).
Proof.
  unfold cpu_handle_write. destruct (ck_half_cycle c) as [|p|p];
    switch_cases; reflexivity.
Qed.

Lemma cpu_handle_read_flag (c : cpu_t) (dest : Z) :
  read_ongoing (snd (fst (cpu_handle_read c dest))) =
  if ck_half_cycle c =? 7 then false else read_ongoing c.
Proof.
  unfold cpu_handle_read. destruct (ck_half_cycle c) as [|p|p];
    switch_cases; reflexivity.
Qed.

Lemma cpu_handle_write_flag (c : cpu_t) :
  write_ongoing (snd (cpu_handle_write c)) =
  if ck_half_cycle c =? 7 then false else write_ongoing c.
Proof.
  unfold cpu_handle_write. destruct (ck_half_cycle c) as [|p|p];
    switch_cases; reflexivity.
Qed.

Lemma cpu_handle_read_half_cycle (c : cpu_t) (dest : Z) :
  ck_half_cycle (snd (fst (cpu_handle_read c dest))) = ck_half_cycle c.
Proof.
  unfold cpu_handle_read. destruct (ck_half_cycle c) as [|p|p] eqn:E;
    switch_cases; simpl; congruence.
Qed.

Lemma cpu_handle_write_half_cycle (c : cpu_t) :
  ck_half_cycle (snd (cpu_handle_write c)) = ck_half_cycle c.
Proof.
  unfold cpu_handle_write. destruct (ck_half_cycle c) as [|p|p] eqn:E;
    switch_cases; simpl; congruence.
Qed.

Lemma cpu_handle_read_a_latch (c : cpu_t) (dest : Z) :
  a_latch (snd (fst (cpu_handle_read c dest))) = a_latch c.
Proof.
  unfold cpu_handle_read. destruct (ck_half_cycle c) as [|p|p];
    switch_cases; reflexivity.
Qed.

Lemma cpu_handle_write_a_latch (c : cpu_t) :
  a_latch (snd (cpu_handle_write c)) = a_latch c.
Proof.
  unfold cpu_handle_write. destruct (ck_half_cycle c) as [|p|p];
    switch_cases; reflexivity.
Qed.

Lemma cpu_update_clocks_half_cycle (c : cpu_t) :
  ck_half_cycle (cpu_update_clocks c) = u8 (ck_half_cycle c + 1) mod 8.
Proof. reflexivity. Qed.

Lemma cpu_update_clocks_next (c : cpu_t) :
  0 <= ck_half_cycle c < 8 ->
  ck_half_cycle (cpu_update_clocks c) = (ck_half_cycle c + 1) mod 8.
Proof.
  intros H. rewrite cpu_update_clocks_half_cycle. unfold u8.
  rewrite (Z.mod_small (ck_half_cycle c + 1) 256) by lia. reflexivity.
Qed.

(** C1, as the code has it: for a target in the ROM or RAM region the step at
    half-cycle 1 deasserts the read strobe (true) when the transaction is a
    write and changes no strobe when it is a read; for the HRAM/IO region no
    strobe changes at half-cycle 1 in either direction. *)
Theorem half_cycle1_strobes (c : cpu_t) (dest : Z) :
  ck_half_cycle c = 1 ->
  let cw := snd (cpu_handle_write c) in
  let cr := snd (fst (cpu_handle_read c dest)) in
  (in_rom (a_latch c) || in_ram (a_latch c) = true ->
   (rd (pins cw) = true /\ wr (pins cw) = wr (pins c)) /\
   (rd (pins cr) = rd (pins c) /\ wr (pins cr) = wr (pins c))) /\
  (in_hram (a_latch c) = true ->
   (rd (pins cw) = rd (pins c) /\ wr (pins cw) = wr (pins c)) /\
   (rd (pins cr) = rd (pins c) /\ wr (pins cr) = wr (pins c))).
Proof.
  intros Hhc cw cr. subst cw cr.
  unfold cpu_handle_write, cpu_handle_read. rewrite Hhc.
  fold (in_rom (a_latch c)). fold (in_ram (a_latch c)).
  split.
  - intros Hreg. rewrite Hreg. simpl. repeat split; reflexivity.
  - intros Hreg. destruct (in_hram_outside _ Hreg) as [Hrom Hram].
    rewrite Hrom, Hram. simpl. repeat split; reflexivity.
Qed.

(** C2, as the code has it: for a write whose target is in the ROM or RAM
    region the step at half-cycle 3 pulls the write strobe active-low (false)
    and places [d_latch] on the data pins; for any other target, the HRAM/IO
    region included, that step changes nothing. *)
Theorem half_cycle3_write (c : cpu_t) :
  ck_half_cycle c = 3 ->
  let cw := snd (cpu_handle_write c) in
  (in_rom (a_latch c) || in_ram (a_latch c) = true ->
   wr (pins cw) = false /\ d (pins cw) = d_latch c) /\
  (in_rom (a_latch c) || in_ram (a_latch c) = false -> cw = c) /\
  (in_hram (a_latch c) = true -> cw = c).
Proof.
  intros Hhc cw. subst cw.
  assert (Hout : in_rom (a_latch c) || in_ram (a_latch c) = false ->
                 snd (cpu_handle_write c) = c).
  { intros Hreg. unfold cpu_handle_write. rewrite Hhc.
    fold (in_rom (a_latch c)). fold (in_ram (a_latch c)).
    rewrite Hreg. simpl. apply set_pins_same. }
  split; [| split].
  - intros Hreg. unfold cpu_handle_write. rewrite Hhc.
    fold (in_rom (a_latch c)). fold (in_ram (a_latch c)).
    rewrite Hreg. simpl. split; reflexivity.
  - exact Hout.
  - intros Hreg. apply Hout.
    destruct (in_hram_outside _ Hreg) as [Hrom Hram].
    rewrite Hrom, Hram. reflexivity.
Qed.

(** ** A transaction driven tick by tick *)

Lemma read_tick_core (s : cpu_t * Z) :
  fst (read_tick s) =
  cpu_update_clocks (snd (fst (cpu_handle_read (fst s) (snd s)))).
Proof.
  unfold read_tick.
  destruct (cpu_handle_read (fst s) (snd s)) as [[b c'] v]. reflexivity.
Qed.

Lemma read_ticks_in_flight (c : cpu_t) (dest : Z) (k : nat) :
  read_ongoing c = true ->
  0 <= ck_half_cycle c ->
  ck_half_cycle c + Z.of_nat k <= 7 ->
  let c' := fst (read_ticks k (c, dest)) in
  ck_half_cycle c' = ck_half_cycle c + Z.of_nat k /\
  read_ongoing c' = true /\ a_latch c' = a_latch c.
Proof.
  intros Hflag Hlo. induction k as [| k IH]; intros Hhi c'; subst c'.
  - simpl. rewrite Z.add_0_r. auto.
  - destruct IH as (IHhc & IHflag & IHlatch); [lia |].
    cbn [read_ticks]. rewrite read_tick_core.
    set (s := read_ticks k (c, dest)) in *.
    repeat split.
    + rewrite cpu_update_clocks_next;
        rewrite cpu_handle_read_half_cycle, IHhc; [| lia].
      rewrite Z.mod_small by lia. lia.
    + change (read_ongoing (snd (fst (cpu_handle_read (fst s) (snd s)))) = true).
      rewrite cpu_handle_read_flag, IHhc.
      destruct (Z.eqb_spec (ck_half_cycle c + Z.of_nat k) 7); [lia | exact IHflag].
    + change (a_latch (snd (fst (cpu_handle_read (fst s) (snd s)))) = a_latch c).
      rewrite cpu_handle_read_a_latch. exact IHlatch.
Qed.

Lemma write_ticks_in_flight (c : cpu_t) (k : nat) :
  write_ongoing c = true ->
  0 <= ck_half_cycle c ->
  ck_half_cycle c + Z.of_nat k <= 7 ->
  let c' := write_ticks k c in
  ck_half_cycle c' = ck_half_cycle c + Z.of_nat k /\
  write_ongoing c' = true /\ a_latch c' = a_latch c.
Proof.
  intros Hflag Hlo. induction k as [| k IH]; intros Hhi c'; subst c'.
  - simpl. rewrite Z.add_0_r. auto.
  - destruct IH as (IHhc & IHflag & IHlatch); [lia |].
    cbn [write_ticks]. unfold write_tick.
    set (w := write_ticks k c) in *.
    repeat split.
    + rewrite cpu_update_clocks_next;
        rewrite cpu_handle_write_half_cycle, IHhc; [| lia].
      rewrite Z.mod_small by lia. lia.
    + change (write_ongoing (snd (cpu_handle_write w)) = true).
      rewrite cpu_handle_write_flag, IHhc.
      destruct (Z.eqb_spec (ck_half_cycle c + Z.of_nat k) 7); [lia | exact IHflag].
    + change (a_latch (snd (cpu_handle_write w)) = a_latch c).
      rewrite cpu_handle_write_a_latch. exact IHlatch.
Qed.

(** C5: a step returns true on every half-cycle other than 7 and false at
    half-cycle 7.  For a transaction begun with [cpu_init_read] or
    [cpu_init_write] at half-cycle [h] and stepped once per tick, the flag is
    true before each of the steps up to and including the one at half-cycle
    7; the steps before that one return true and leave the flag true, and the
    step at half-cycle 7 returns false and clears the flag. *)
Theorem transaction_completion (c : cpu_t) (addr data dest : Z) :
  0 <= ck_half_cycle c < 8 ->
  let n := Z.to_nat (7 - ck_half_cycle c) in
  (forall (c' : cpu_t) (v : Z),
      fst (fst (cpu_handle_read c' v)) = negb (ck_half_cycle c' =? 7) /\
      fst (cpu_handle_write c') = negb (ck_half_cycle c' =? 7)) /\
  (forall k : nat, (k <= n)%nat ->
     let s := read_ticks k (cpu_init_read c addr, dest) in
     let r := cpu_handle_read (fst s) (snd s) in
     ck_half_cycle (fst s) = ck_half_cycle c + Z.of_nat k /\
     read_ongoing (fst s) = true /\
     fst (fst r) = negb (k =? n)%nat /\
     read_ongoing (snd (fst r)) = negb (k =? n)%nat) /\
  (forall k : nat, (k <= n)%nat ->
     let w := write_ticks k (cpu_init_write c addr data) in
     let r := cpu_handle_write w in
     ck_half_cycle w = ck_half_cycle c + Z.of_nat k /\
     write_ongoing w = true /\
     fst r = negb (k =? n)%nat /\
     write_ongoing (snd r) = negb (k =? n)%nat).
Proof.
  intros Hhc n. split; [| split].
  - intros c' v. split.
    + apply cpu_handle_read_continues.
    + apply cpu_handle_write_continues.
  - intros k Hk s r. subst s r.
    destruct (@read_ticks_in_flight (cpu_init_read c addr) dest k)
      as (Hh & Hf & _); try reflexivity.
    + change (ck_half_cycle (cpu_init_read c addr)) with (ck_half_cycle c). lia.
    + change (ck_half_cycle (cpu_init_read c addr)) with (ck_half_cycle c).
      subst n. lia.
    + change (ck_half_cycle (cpu_init_read c addr)) with (ck_half_cycle c) in Hh.
      rewrite cpu_handle_read_continues, cpu_handle_read_flag, Hh, Hf.
      repeat split.
      * destruct (Z.eqb_spec (ck_half_cycle c + Z.of_nat k) 7);
          destruct (Nat.eqb_spec k n); subst n; simpl; try reflexivity; lia.
      * destruct (Z.eqb_spec (ck_half_cycle c + Z.of_nat k) 7);
          destruct (Nat.eqb_spec k n); subst n; simpl; try reflexivity; lia.
  - intros k Hk w r. subst w r.
    destruct (@write_ticks_in_flight (cpu_init_write c addr data) k)
      as (Hh & Hf & _); try reflexivity.
    + change (ck_half_cycle (cpu_init_write c addr data)) with (ck_half_cycle c).
      lia.
    + change (ck_half_cycle (cpu_init_write c addr data)) with (ck_half_cycle c).
      subst n. lia.
    + change (ck_half_cycle (cpu_init_write c addr data))
        with (ck_half_cycle c) in Hh.
      rewrite cpu_handle_write_continues, cpu_handle_write_flag, Hh, Hf.
      repeat split.
      * destruct (Z.eqb_spec (ck_half_cycle c + Z.of_nat k) 7);
          destruct (Nat.eqb_spec k n); subst n; simpl; try reflexivity; lia.
      * destruct (Z.eqb_spec (ck_half_cycle c + Z.of_nat k) 7);
          destruct (Nat.eqb_spec k n); subst n; simpl; try reflexivity; lia.
Qed.

(** ** The select lines A15 and CS during a transaction *)

Lemma A15_pulled_high (x : Z) : Z.testbit (Z.lor x 0x8000) 15 = true.
Proof.
  rewrite Z.lor_spec.
  replace (Z.testbit 0x8000 15) with true by reflexivity.
  apply orb_true_r.
Qed.

Lemma A15_kept (x y : Z) :
  Z.testbit (Z.lor (Z.land x 0x8000) (Z.land y 0x7fff)) 15 = Z.testbit x 15.
Proof.
  rewrite Z.lor_spec, !Z.land_spec.
  replace (Z.testbit 0x8000 15) with true by reflexivity.
  replace (Z.testbit 0x7fff 15) with false by reflexivity.
  rewrite andb_true_r, andb_false_r. apply orb_false_r.
Qed.

Lemma A15_pulled_low (x : Z) : Z.testbit (Z.land x 0x7fff) 15 = false.
Proof.
  rewrite Z.land_spec.
  replace (Z.testbit 0x7fff 15) with false by reflexivity.
  apply andb_false_r.
Qed.

(** What the step at half-cycle [h] does to the pair (A15, CS); [rom] and
    [ram] tell the region of the latched address. *)
Definition select_step (h : Z) (rom ram : bool) (sel : bool * bool)
  : bool * bool :=
  match h with
  | 0 => (true, true)
  | 2 => if rom then (false, snd sel)
         else if ram then (fst sel, false) else sel
  | _ => sel
  end.

Fixpoint select_run (k : nat) (rom ram : bool) (sel : bool * bool)
  : bool * bool :=
  match k with
  | O => sel
  | S j => select_step (Z.of_nat j) rom ram (select_run j rom ram sel)
  end.

Definition select_lines (c : cpu_t) : bool * bool :=
  (A15 (pins c), cs (pins c)).

Ltac select_cases :=
  cbn -[Z.testbit Z.lor Z.land];
  repeat match goal with
         | |- context [if ?b then _ else _] => destruct b; cbn -[Z.testbit Z.lor Z.land]
         end;
  rewrite ?A15_kept, ?A15_pulled_high, ?A15_pulled_low; reflexivity.

Lemma cpu_handle_read_select (c : cpu_t) (dest : Z) :
  select_lines (snd (fst (cpu_handle_read c dest))) =
  select_step (ck_half_cycle c) (in_rom (a_latch c)) (in_ram (a_latch c))
              (select_lines c).
Proof.
  unfold cpu_handle_read, select_step, select_lines, A15, in_rom, in_ram.
  destruct (ck_half_cycle c) as [|p|p]; switch_cases; select_cases.
Qed.

Lemma cpu_handle_write_select (c : cpu_t) :
  select_lines (snd (cpu_handle_write c)) =
  select_step (ck_half_cycle c) (in_rom (a_latch c)) (in_ram (a_latch c))
              (select_lines c).
Proof.
  unfold cpu_handle_write, select_step, select_lines, A15, in_rom, in_ram.
  destruct (ck_half_cycle c) as [|p|p]; switch_cases; select_cases.
Qed.

Lemma cpu_update_clocks_select (c : cpu_t) :
  select_lines (cpu_update_clocks c) = select_lines c.
Proof. reflexivity. Qed.

Lemma read_ticks_select (c : cpu_t) (dest : Z) (k : nat) :
  read_ongoing c = true ->
  ck_half_cycle c = 0 ->
  (k <= 8)%nat ->
  select_lines (fst (read_ticks k (c, dest))) =
  select_run k (in_rom (a_latch c)) (in_ram (a_latch c)) (select_lines c).
Proof.
  intros Hflag Hhc. induction k as [| k IH]; intros Hk.
  - reflexivity.
  - destruct (@read_ticks_in_flight c dest k Hflag) as (Hh & _ & Hl);
      [lia | lia |].
    cbn [read_ticks select_run]. rewrite read_tick_core.
    rewrite cpu_update_clocks_select, cpu_handle_read_select.
    rewrite Hh, Hl, Hhc, IH by lia. reflexivity.
Qed.

Lemma write_ticks_select (c : cpu_t) (k : nat) :
  write_ongoing c = true ->
  ck_half_cycle c = 0 ->
  (k <= 8)%nat ->
  select_lines (write_ticks k c) =
  select_run k (in_rom (a_latch c)) (in_ram (a_latch c)) (select_lines c).
Proof.
  intros Hflag Hhc. induction k as [| k IH]; intros Hk.
  - reflexivity.
  - destruct (@write_ticks_in_flight c k Hflag) as (Hh & _ & Hl);
      [lia | lia |].
    cbn [write_ticks select_run]. unfold write_tick.
    rewrite cpu_update_clocks_select, cpu_handle_write_select.
    rewrite Hh, Hl, Hhc, IH by lia. reflexivity.
Qed.

(** The pair (A15, CS) after [k] of the eight ticks, for each region. *)
Lemma select_run_regions (k : nat) (rom ram : bool) (sel : bool * bool) :
  (1 <= k <= 8)%nat ->
  select_run k rom ram sel =
  if rom then ((k <? 3)%nat, true)
  else if ram then (true, (k <? 3)%nat) else (true, true).
Proof.
  intros Hk.
  do 9 (destruct k as [| k]; [try lia; destruct rom, ram; reflexivity |]).
  lia.
Qed.

(** C4: a read or a write begun at half-cycle 0 and driven for the eight
    ticks of its machine cycle.  After [k] of those ticks (1 <= k <= 8):
    for a ROM address CS is high and A15 is high until the step at half-cycle
    2 has run (k < 3) and low from then on; for a RAM address A15 is high and
    CS is high until the step at half-cycle 2 has run and low from then on;
    for an HRAM/IO address both are high throughout, so neither is pulled
    active at half-cycle 2. *)
Theorem region_select (c : cpu_t) (addr data dest : Z) (k : nat) :
  ck_half_cycle c = 0 ->
  (1 <= k <= 8)%nat ->
  let r := fst (read_ticks k (cpu_init_read c addr, dest)) in
  let w := write_ticks k (cpu_init_write c addr data) in
  (in_rom addr = true ->
   (A15 (pins r) = (k <? 3)%nat /\ cs (pins r) = true) /\
   (A15 (pins w) = (k <? 3)%nat /\ cs (pins w) = true)) /\
  (in_ram addr = true ->
   (A15 (pins r) = true /\ cs (pins r) = (k <? 3)%nat) /\
   (A15 (pins w) = true /\ cs (pins w) = (k <? 3)%nat)) /\
  (in_hram addr = true ->
   (A15 (pins r) = true /\ cs (pins r) = true) /\
   (A15 (pins w) = true /\ cs (pins w) = true)).
Proof.
  intros Hhc Hk r w.
  assert (Hr : select_lines r =
               select_run k (in_rom (u16 addr)) (in_ram (u16 addr))
                          (select_lines (cpu_init_read c addr))).
  { subst r. now apply read_ticks_select; [| | lia]. }
  assert (Hw : select_lines w =
               select_run k (in_rom (u16 addr)) (in_ram (u16 addr))
                          (select_lines (cpu_init_write c addr data))).
  { subst w. now apply write_ticks_select; [| | lia]. }
  rewrite select_run_regions in Hr, Hw by exact Hk.
  unfold select_lines in Hr, Hw.
  split; [| split]; intros Hreg.
  - rewrite (in_rom_u16 _ Hreg), Hreg in Hr, Hw.
    injection Hr as Hr1 Hr2. injection Hw as Hw1 Hw2. repeat split; assumption.
  - rewrite (in_ram_u16 _ Hreg), Hreg, (in_ram_not_rom _ Hreg) in Hr, Hw.
    injection Hr as Hr1 Hr2. injection Hw as Hw1 Hw2. repeat split; assumption.
  - destruct (in_hram_outside _ Hreg) as [Hrom Hram].
    rewrite (in_hram_u16 _ Hreg), Hrom, Hram in Hr, Hw.
    injection Hr as Hr1 Hr2. injection Hw as Hw1 Hw2. repeat split; assumption.
Qed.

(** ** The tick entry point *)

Lemma opcode_fetch_calls (c : cpu_t) :
  fst (opcode_fetch c) =
  (if read_ongoing c then [] else [Call_init_read (pc c)])
    ++ [Call_handle_read].
Proof.
  unfold opcode_fetch. destruct (read_ongoing c); cbn [negb];
    match goal with
    | |- context [cpu_handle_read ?x ?v] =>
        destruct (cpu_handle_read x v) as [[b c'] w]
    end; reflexivity.
Qed.

(** The core as the step of the fetch finds it: a read begun at [pc++]
    unless one is already in flight. *)
Definition fetch_begun (c : cpu_t) : cpu_t :=
  if read_ongoing c then c
  else cpu_init_read (set_pc c (u16 (pc c + 1))) (pc c).

Lemma opcode_fetch_core (c : cpu_t) :
  let r := cpu_handle_read (fetch_begun c) (instruction_latch (fetch_begun c)) in
  snd (opcode_fetch c) =
  let c' := set_instruction_latch (snd (fst r)) (snd r) in
  if fst (fst r) then c' else set_state c' ST_EXECUTE.
Proof.
  unfold opcode_fetch, fetch_begun.
  destruct (read_ongoing c); cbn [negb];
    match goal with
    | |- context [cpu_handle_read ?x ?v] =>
        destruct (cpu_handle_read x v) as [[b c'] w]
    end; destruct b; reflexivity.
Qed.

Lemma fetch_begun_half_cycle (c : cpu_t) :
  ck_half_cycle (fetch_begun c) = ck_half_cycle c.
Proof. unfold fetch_begun. destruct (read_ongoing c); reflexivity. Qed.

Lemma fetch_begun_flag (c : cpu_t) : read_ongoing (fetch_begun c) = true.
Proof. unfold fetch_begun. destruct (read_ongoing c) eqn:E; auto. Qed.

Lemma fetch_begun_pins (c : cpu_t) : pins (fetch_begun c) = pins c.
Proof. unfold fetch_begun. destruct (read_ongoing c); reflexivity. Qed.

Lemma fetch_begun_latch (c : cpu_t) :
  instruction_latch (fetch_begun c) = instruction_latch c.
Proof. unfold fetch_begun. destruct (read_ongoing c); reflexivity. Qed.

Lemma opcode_fetch_half_cycle (c : cpu_t) :
  ck_half_cycle (snd (opcode_fetch c)) = ck_half_cycle c.
Proof.
  rewrite opcode_fetch_core. cbv zeta.
  rewrite <- (fetch_begun_half_cycle c).
  rewrite <- (cpu_handle_read_half_cycle (fetch_begun c)
                (instruction_latch (fetch_begun c))).
  destruct (fst (fst (cpu_handle_read (fetch_begun c) (instruction_latch (fetch_begun c)))));
    reflexivity.
Qed.

Lemma opcode_fetch_flag (c : cpu_t) :
  read_ongoing (snd (opcode_fetch c)) = negb (ck_half_cycle c =? 7).
Proof.
  rewrite opcode_fetch_core. cbv zeta.
  transitivity (read_ongoing (snd (fst (cpu_handle_read (fetch_begun c)
                                          (instruction_latch (fetch_begun c)))))).
  - destruct (fst (fst (cpu_handle_read (fetch_begun c) (instruction_latch (fetch_begun c)))));
      reflexivity.
  - rewrite cpu_handle_read_flag, fetch_begun_half_cycle, fetch_begun_flag.
    destruct (ck_half_cycle c =? 7); reflexivity.
Qed.

Lemma opcode_fetch_state (c : cpu_t) :
  state (snd (opcode_fetch c)) =
  if ck_half_cycle c =? 7 then ST_EXECUTE else state c.
Proof.
  rewrite opcode_fetch_core. cbv zeta.
  rewrite cpu_handle_read_continues, fetch_begun_half_cycle.
  destruct (ck_half_cycle c =? 7); cbn [negb state set_state].
  - reflexivity.
  - unfold cpu_handle_read, fetch_begun.
    destruct (read_ongoing c);
      match goal with
      | |- context [match ?h with _ => _ end] =>
          destruct h as [|p|p]; switch_cases; reflexivity
      end.
Qed.

Lemma opcode_fetch_latch (c : cpu_t) :
  instruction_latch (snd (opcode_fetch c)) =
  if ck_half_cycle c =? 6 then d (pins c) else instruction_latch c.
Proof.
  rewrite opcode_fetch_core. cbv zeta.
  transitivity (snd (cpu_handle_read (fetch_begun c) (instruction_latch (fetch_begun c)))).
  - destruct (fst (fst (cpu_handle_read (fetch_begun c) (instruction_latch (fetch_begun c)))));
      reflexivity.
  - unfold cpu_handle_read.
    rewrite fetch_begun_half_cycle, fetch_begun_pins, fetch_begun_latch.
    destruct (ck_half_cycle c) as [|p|p]; switch_cases; reflexivity.
Qed.

Lemma opcode_fetch_address (c : cpu_t) :
  let c' := snd (opcode_fetch c) in
  (read_ongoing c = false ->
   a_latch c' = u16 (pc c) /\ pc c' = u16 (pc c + 1)) /\
  (read_ongoing c = true -> a_latch c' = a_latch c /\ pc c' = pc c).
Proof.
  cbv zeta. rewrite opcode_fetch_core. cbv zeta.
  set (r := cpu_handle_read (fetch_begun c) (instruction_latch (fetch_begun c))).
  assert (Ha : a_latch (if fst (fst r)
                        then set_instruction_latch (snd (fst r)) (snd r)
                        else set_state
                               (set_instruction_latch (snd (fst r)) (snd r))
                               ST_EXECUTE)
               = a_latch (fetch_begun c)).
  { destruct (fst (fst r)); apply cpu_handle_read_a_latch. }
  assert (Hp : pc (if fst (fst r)
                   then set_instruction_latch (snd (fst r)) (snd r)
                   else set_state
                          (set_instruction_latch (snd (fst r)) (snd r))
                          ST_EXECUTE)
               = pc (fetch_begun c)).
  { subst r. unfold cpu_handle_read.
    destruct (ck_half_cycle (fetch_begun c)) as [|p|p]; switch_cases;
      reflexivity. }
  rewrite Ha, Hp. unfold fetch_begun.
  split; intros E; rewrite E; split; reflexivity.
Qed.

Definition is_instruction_call (x : call) : bool :=
  match x with
  | Call_instruction _ _ => true
  | _ => false
  end.

Lemma cpu_clock_calls_execute (c : cpu_t) :
  state c = ST_EXECUTE ->
  let r := run_instruction (dispatch (instruction_latch c)) c in
  let called := Call_instruction (instruction_latch c)
                                 (dispatch (instruction_latch c)) in
  cpu_clock_calls c =
  if is_last_cycle (fst r)
  then (called :: fst (opcode_fetch (snd r)) ++ [Call_update_clocks],
        cpu_update_clocks (snd (opcode_fetch (snd r))))
  else ([called; Call_update_clocks], cpu_update_clocks (snd r)).
Proof.
  intros Hst. cbv zeta. unfold cpu_clock_calls. rewrite Hst.
  destruct (run_instruction (dispatch (instruction_latch c)) c) as [st c1].
  cbn [fst snd]. destruct (is_last_cycle st).
  - destruct (opcode_fetch c1) as [l c2]. reflexivity.
  - reflexivity.
Qed.

(** C3, as the code has it: one tick in [ST_EXECUTE].  The handler that
    [instruction_table] holds at index [instruction_latch] is called exactly
    once.  If it reports the final cycle, then in the same tick a read is
    begun at [pc] (which is post-incremented) exactly when none is in
    flight, and the read is stepped once with [instruction_latch] as its
    destination: the step at half-cycle 6 stores the byte on the data pins
    into [instruction_latch] while the read stays in flight, and the step at
    half-cycle 7 completes the read, stores nothing and sets the state to
    [ST_EXECUTE].  The tick leaves the core exactly as that step of the read
    followed by the clock divider leaves it.  If the handler reports that
    more cycles remain, the only further call is the clock divider's: no
    read is begun or stepped. *)
Theorem execute_tick (c : cpu_t) :
  state c = ST_EXECUTE ->
  let h := dispatch (instruction_latch c) in
  let st := fst (run_instruction h c) in
  let c1 := snd (run_instruction h c) in
  let calls := fst (cpu_clock_calls c) in
  let c' := cpu_clock c in
  (0 <= instruction_latch c <= 255 ->
   nth_error instruction_table (Z.to_nat (instruction_latch c)) = Some h) /\
  filter is_instruction_call calls = [Call_instruction (instruction_latch c) h] /\
  (st = IS_LAST_CYCLE ->
   calls = Call_instruction (instruction_latch c) h
             :: (if read_ongoing c1 then [] else [Call_init_read (pc c1)])
             ++ [Call_handle_read; Call_update_clocks] /\
   (read_ongoing c1 = false ->
    a_latch c' = u16 (pc c1) /\ pc c' = u16 (pc c1 + 1)) /\
   (read_ongoing c1 = true -> a_latch c' = a_latch c1 /\ pc c' = pc c1) /\
   (ck_half_cycle c1 = 6 ->
    instruction_latch c' = d (pins c1) /\ read_ongoing c' = true /\
    state c' = state c1) /\
   (ck_half_cycle c1 = 7 ->
    instruction_latch c' = instruction_latch c1 /\ read_ongoing c' = false /\
    state c' = ST_EXECUTE) /\
   (ck_half_cycle c1 <> 6 -> ck_half_cycle c1 <> 7 ->
    instruction_latch c' = instruction_latch c1 /\ read_ongoing c' = true /\
    state c' = state c1) /\
   (let r := cpu_handle_read (fetch_begun c1)
                             (instruction_latch (fetch_begun c1)) in
    let c3 := set_instruction_latch (snd (fst r)) (snd r) in
    c' = cpu_update_clocks (if fst (fst r) then c3
                            else set_state c3 ST_EXECUTE))) /\
  (st = IS_MORE_CYCLES ->
   calls = [Call_instruction (instruction_latch c) h; Call_update_clocks] /\
   c' = cpu_update_clocks c1).
Proof.
  intros Hst h st c1 calls c'. subst calls c'. unfold cpu_clock.
  rewrite (cpu_clock_calls_execute c Hst). cbv zeta.
  fold h. fold st. fold c1.
  split; [| split; [| split]].
  - intros Hop. subst h. unfold dispatch.
    apply nth_error_nth'. rewrite instruction_table_length. lia.
  - destruct (is_last_cycle st); cbn [fst]; [| reflexivity].
    rewrite opcode_fetch_calls.
    destruct (read_ongoing c1); reflexivity.
  - intros Hlast. rewrite Hlast. cbn [is_last_cycle fst snd].
    destruct (opcode_fetch_address c1) as [Hbegin Hkeep].
    pose proof (opcode_fetch_flag c1) as Hflag.
    pose proof (opcode_fetch_latch c1) as Hlatch.
    pose proof (opcode_fetch_state c1) as Hstate.
    split; [| split; [exact Hbegin | split; [exact Hkeep |]]].
    + rewrite opcode_fetch_calls. rewrite <- app_assoc. reflexivity.
    + split; [| split; [| split]].
      * intros H6. rewrite H6 in Hflag, Hlatch, Hstate.
        split; [exact Hlatch | split; [exact Hflag | exact Hstate]].
      * intros H7. rewrite H7 in Hflag, Hlatch, Hstate.
        split; [exact Hlatch | split; [exact Hflag | exact Hstate]].
      * intros N6 N7.
        destruct (Z.eqb_spec (ck_half_cycle c1) 6) as [E | _]; [contradiction |].
        destruct (Z.eqb_spec (ck_half_cycle c1) 7) as [E | _]; [contradiction |].
        split; [exact Hlatch | split; [exact Hflag | exact Hstate]].
      * rewrite opcode_fetch_core. reflexivity.
  - intros Hmore. rewrite Hmore. cbn [is_last_cycle fst snd].
    split; reflexivity.
Qed.

(** ** Clock divider and the tick count *)

Lemma cpu_clock_half_cycle (c : cpu_t) :
  (forall h c0, ck_half_cycle (snd (run_instruction h c0)) = ck_half_cycle c0) ->
  ck_half_cycle (cpu_clock c) = u8 (ck_half_cycle c + 1) mod 8.
Proof.
  intros Hkeep. unfold cpu_clock, cpu_clock_calls.
  destruct (state c).
  - destruct (opcode_fetch c) as [l c2] eqn:E. cbn [snd].
    rewrite cpu_update_clocks_half_cycle.
    change c2 with (snd (l, c2)). rewrite <- E, opcode_fetch_half_cycle.
    reflexivity.
  - specialize (Hkeep (dispatch (instruction_latch c)) c).
    destruct (run_instruction (dispatch (instruction_latch c)) c) as [st c1].
    cbn [snd] in Hkeep. destruct (is_last_cycle st).
    + destruct (opcode_fetch c1) as [l c2] eqn:E. cbn [snd].
      rewrite cpu_update_clocks_half_cycle.
      change c2 with (snd (l, c2)). rewrite <- E, opcode_fetch_half_cycle.
      rewrite Hkeep. reflexivity.
    + cbn [snd]. rewrite cpu_update_clocks_half_cycle, Hkeep. reflexivity.
  - reflexivity.
Qed.

Lemma cpu_update_clocks_phi (c : cpu_t) :
  let c' := cpu_update_clocks c in
  0 <= ck_half_cycle c' < 8 /\
  phi (pins c') = negb (Z.testbit (ck_half_cycle c') 2) /\
  (phi (pins c') = false <-> 4 <= ck_half_cycle c' <= 7).
Proof.
  cbv zeta.
  assert (Hb : 0 <= ck_half_cycle (cpu_update_clocks c) < 8).
  { rewrite cpu_update_clocks_half_cycle. apply Z.mod_pos_bound. lia. }
  split; [exact Hb |].
  change (phi (pins (cpu_update_clocks c)))
    with (Z.land (Z.shiftr (ck_half_cycle (cpu_update_clocks c)) 2) 1 =? 0).
  set (h := ck_half_cycle (cpu_update_clocks c)) in *.
  assert (Hcases : h = 0 \/ h = 1 \/ h = 2 \/ h = 3 \/
                   h = 4 \/ h = 5 \/ h = 6 \/ h = 7) by lia.
  clearbody h.
  repeat (destruct Hcases as [-> | Hcases]); try subst h;
    (split; [reflexivity | split; [intros E; try discriminate E; lia | intros E; try lia; reflexivity]]).
Qed.

Lemma cpu_clock_phi (c : cpu_t) :
  let c' := cpu_clock c in
  phi (pins c') = negb (Z.testbit (ck_half_cycle c') 2) /\
  (phi (pins c') = false <-> 4 <= ck_half_cycle c' <= 7).
Proof.
  cbv zeta. unfold cpu_clock, cpu_clock_calls.
  match goal with
  | |- context [let '(l, c0) := ?x in _] => destruct x as [l c2]
  end.
  cbn [snd]. apply cpu_update_clocks_phi.
Qed.

(** C6: starting from [cpu_init], after [n] calls of [cpu_clock] the
    half-cycle counter is [n mod 8], provided the instruction handlers leave
    the counter alone; and after every tick [phi] is the negation of bit 2 of
    the counter, hence false exactly when the counter is 4, 5, 6 or 7. *)
Theorem half_cycle_wraparound (lr35902 : lr35902_t) (n : nat) :
  (forall h c0, ck_half_cycle (snd (run_instruction h c0)) = ck_half_cycle c0) ->
  let c := clock_ticks n (cpu_init lr35902) in
  ck_half_cycle c = Z.of_nat n mod 8 /\
  ((1 <= n)%nat ->
   phi (pins c) = negb (Z.testbit (ck_half_cycle c) 2) /\
   (phi (pins c) = false <-> 4 <= ck_half_cycle c <= 7)).
Proof.
  intros Hkeep c. subst c. split.
  - induction n as [| n IH].
    + reflexivity.
    + cbn [clock_ticks]. rewrite (cpu_clock_half_cycle _ Hkeep).
      change (ck_half_cycle (set_pins ?x ?p)) with (ck_half_cycle x).
      rewrite IH. unfold u8.
      assert (Hb : 0 <= Z.of_nat n mod 8 < 8) by (apply Z.mod_pos_bound; lia).
      rewrite (Z.mod_small (Z.of_nat n mod 8 + 1) 256) by lia.
      rewrite Nat2Z.inj_succ. unfold Z.succ.
      rewrite Zplus_mod_idemp_l. reflexivity.
  - intros Hn. destruct n as [| n]; [lia |].
    cbn [clock_ticks]. apply cpu_clock_phi.
Qed.

(** C8, as the code has it: a tick in [ST_TEST] calls nothing but the clock
    divider.  It advances [ck_half_cycle] and recomputes the [phi] pin from
    it; every other pin, the latches, the program counter, the in-flight
    flags and the state are left as they were. *)
Theorem test_tick_frame (c : cpu_t) :
  state c = ST_TEST ->
  let c' := cpu_clock c in
  fst (cpu_clock_calls c) = [Call_update_clocks] /\
  (a (pins c') = a (pins c) /\ d (pins c') = d (pins c) /\
   rd (pins c') = rd (pins c) /\ wr (pins c') = wr (pins c) /\
   cs (pins c') = cs (pins c)) /\
  (a_latch c' = a_latch c /\ d_latch c' = d_latch c /\
   instruction_latch c' = instruction_latch c /\ pc c' = pc c /\
   read_ongoing c' = read_ongoing c /\ write_ongoing c' = write_ongoing c /\
   state c' = ST_TEST /\ regs c' = regs c) /\
  ck_half_cycle c' = u8 (ck_half_cycle c + 1) mod 8 /\
  phi (pins c') = negb (Z.testbit (ck_half_cycle c') 2).
Proof.
  intros Hst c'. subst c'.
  assert (E : cpu_clock_calls c = ([Call_update_clocks], cpu_update_clocks c)).
  { unfold cpu_clock_calls. rewrite Hst. reflexivity. }
  unfold cpu_clock. rewrite E. cbn [fst snd].
  split; [reflexivity |]. split; [repeat split |]. split; [| split].
  - repeat split. exact Hst.
  - reflexivity.
  - apply cpu_update_clocks_phi.
Qed.

(** ** Prefetch overlap over a whole machine cycle *)

(** The handler leaves alone what the opcode fetch works with. *)
Definition fetch_state_kept (c c' : cpu_t) : Prop :=
  pins c' = pins c /\ state c' = state c /\
  read_ongoing c' = read_ongoing c /\ a_latch c' = a_latch c /\
  ck_half_cycle c' = ck_half_cycle c /\
  pc c' = pc c /\ instruction_latch c' = instruction_latch c.

(** Every handler is a one-cycle instruction: it reports its final cycle on
    each tick and keeps out of the fetch. *)
Definition one_cycle_handlers : Prop :=
  forall h c,
    fst (run_instruction h c) = IS_LAST_CYCLE /\
    fetch_state_kept c (snd (run_instruction h c)).

Lemma cpu_clock_overlap (c : cpu_t) :
  one_cycle_handlers ->
  state c = ST_EXECUTE ->
  0 <= ck_half_cycle c < 8 ->
  let c' := cpu_clock c in
  state c' = ST_EXECUTE /\
  ck_half_cycle c' = (ck_half_cycle c + 1) mod 8 /\
  read_ongoing c' = negb (ck_half_cycle c =? 7) /\
  pc c' = (if read_ongoing c then pc c else u16 (pc c + 1)) /\
  a_latch c' = (if read_ongoing c then a_latch c else u16 (pc c)) /\
  instruction_latch c' =
    (if ck_half_cycle c =? 6 then d (pins c) else instruction_latch c) /\
  fst (cpu_clock_calls c) =
    Call_instruction (instruction_latch c) (dispatch (instruction_latch c))
      :: (if read_ongoing c then [] else [Call_init_read (pc c)])
      ++ [Call_handle_read; Call_update_clocks].
Proof.
  intros Hone Hst Hhc c'. subst c'. unfold cpu_clock.
  rewrite (cpu_clock_calls_execute c Hst). cbv zeta.
  destruct (Hone (dispatch (instruction_latch c)) c)
    as (Hlast & Hp & Hs & Hr & Hal & Hh & Hpc & Hl).
  set (c1 := snd (run_instruction (dispatch (instruction_latch c)) c)) in *.
  rewrite Hlast. cbn [is_last_cycle fst snd].
  destruct (opcode_fetch_address c1) as [Hbegin Hkeep].
  split; [| split; [| split; [| split; [| split; [| split]]]]].
  - change (state (snd (opcode_fetch c1)) = ST_EXECUTE).
    rewrite opcode_fetch_state, Hs, Hst.
    destruct (ck_half_cycle c1 =? 7); reflexivity.
  - rewrite cpu_update_clocks_next; rewrite opcode_fetch_half_cycle, Hh;
      [reflexivity | exact Hhc].
  - change (read_ongoing (snd (opcode_fetch c1)) = negb (ck_half_cycle c =? 7)).
    rewrite opcode_fetch_flag, Hh. reflexivity.
  - change (pc (snd (opcode_fetch c1)) =
            if read_ongoing c then pc c else u16 (pc c + 1)).
    rewrite <- Hr, <- Hpc.
    destruct (read_ongoing c1) eqn:E.
    + apply (proj2 (Hkeep eq_refl)).
    + apply (proj2 (Hbegin eq_refl)).
  - change (a_latch (snd (opcode_fetch c1)) =
            if read_ongoing c then a_latch c else u16 (pc c)).
    rewrite <- Hr, <- Hpc, <- Hal.
    destruct (read_ongoing c1) eqn:E.
    + apply (proj1 (Hkeep eq_refl)).
    + apply (proj1 (Hbegin eq_refl)).
  - change (instruction_latch (snd (opcode_fetch c1)) =
            if ck_half_cycle c =? 6 then d (pins c) else instruction_latch c).
    rewrite opcode_fetch_latch, Hh, Hp, Hl. reflexivity.
  - rewrite opcode_fetch_calls, <- app_assoc, Hr, Hpc. reflexivity.
Qed.

(** The core after [k] ticks of an overlapped fetch begun at half-cycle 0;
    [b] is the byte the bus shows before the tick at half-cycle 6. *)
Lemma prefetch_run_invariant (c : cpu_t) (b : Z) (k : nat) :
  one_cycle_handlers ->
  state c = ST_EXECUTE ->
  ck_half_cycle c = 0 ->
  read_ongoing c = false ->
  b = d (bus 6 (pins (clock_ticks 6 c))) ->
  (k <= 8)%nat ->
  let x := clock_ticks k c in
  state x = ST_EXECUTE /\
  ck_half_cycle x = Z.of_nat k mod 8 /\
  read_ongoing x = (0 <? Z.of_nat k) && (Z.of_nat k <? 8) /\
  pc x = (if Z.of_nat k =? 0 then pc c else u16 (pc c + 1)) /\
  ((1 <= k)%nat -> a_latch x = u16 (pc c)) /\
  ((7 <= k)%nat -> instruction_latch x = b).
Proof.
  intros Hone Hst Hhc Hflag Hb. induction k as [| k IH]; intros Hk.
  - cbv zeta. cbn [clock_ticks]. rewrite Hst, Hhc, Hflag.
    repeat split; try reflexivity; lia.
  - destruct IH as (IHs & IHh & IHr & IHp & IHa & IHl); [lia |].
    cbv zeta. cbn [clock_ticks].
    set (x := clock_ticks k c) in *.
    rewrite Z.mod_small in IHh by lia.
    destruct (@cpu_clock_overlap (set_pins x (bus k (pins x))) Hone IHs)
      as (Hs & Hh & Hr & Hp & Ha & Hl & _).
    { change (0 <= ck_half_cycle x < 8). lia. }
    change (ck_half_cycle (set_pins x (bus k (pins x))))
      with (ck_half_cycle x) in *.
    change (read_ongoing (set_pins x (bus k (pins x))))
      with (read_ongoing x) in *.
    change (pc (set_pins x (bus k (pins x)))) with (pc x) in *.
    change (a_latch (set_pins x (bus k (pins x)))) with (a_latch x) in *.
    change (instruction_latch (set_pins x (bus k (pins x))))
      with (instruction_latch x) in *.
    change (pins (set_pins x (bus k (pins x)))) with (bus k (pins x)) in *.
    rewrite Hh, Hr, Hp, Ha, IHh, IHr, IHp. rewrite Nat2Z.inj_succ.
    split; [exact Hs |]. split; [reflexivity | split; [| split; [| split]]].
    + destruct (Z.eqb_spec (Z.of_nat k) 7);
        destruct (Z.ltb_spec 0 (Z.succ (Z.of_nat k)));
        destruct (Z.ltb_spec (Z.succ (Z.of_nat k)) 8);
        simpl; try reflexivity; lia.
    + destruct (Z.eqb_spec (Z.succ (Z.of_nat k)) 0); [lia |].
      destruct (Z.eqb_spec (Z.of_nat k) 0);
        destruct (Z.ltb_spec 0 (Z.of_nat k));
        destruct (Z.ltb_spec (Z.of_nat k) 8);
        simpl; try reflexivity; lia.
    + intros _.
      destruct (Z.eqb_spec (Z.of_nat k) 0);
        destruct (Z.ltb_spec 0 (Z.of_nat k));
        destruct (Z.ltb_spec (Z.of_nat k) 8);
        simpl; first [reflexivity | lia | apply IHa; lia].
    + intros H7. rewrite Hl, IHh.
      destruct (Z.eqb_spec (Z.of_nat k) 6) as [E | E].
      * assert (k = 6%nat) by lia. subst k b. reflexivity.
      * apply IHl. lia.
Qed.

(** With one-cycle handlers, the eight ticks that follow the end of an
    instruction fetch the next opcode without leaving [ST_EXECUTE].  The
    first tick calls the handler of the latched opcode, begins a read at
    [pc] and steps it.  After every one of the eight ticks the state is
    [ST_EXECUTE], the latched address is the old [pc] and [pc] is one
    further; the read is in flight after each of the first seven ticks, so no
    second read is begun, and complete after the eighth; and then
    [instruction_latch] holds the byte the bus showed before the tick at
    half-cycle 6. *)
Lemma prefetch_overlap_run (c : cpu_t) :
  one_cycle_handlers ->
  state c = ST_EXECUTE ->
  ck_half_cycle c = 0 ->
  read_ongoing c = false ->
  fst (cpu_clock_calls (set_pins c (bus 0 (pins c)))) =
    [Call_instruction (instruction_latch c) (dispatch (instruction_latch c));
     Call_init_read (pc c); Call_handle_read; Call_update_clocks] /\
  (forall k : nat, (k <= 8)%nat -> state (clock_ticks k c) = ST_EXECUTE) /\
  (forall k : nat, (1 <= k <= 8)%nat ->
     a_latch (clock_ticks k c) = u16 (pc c) /\
     pc (clock_ticks k c) = u16 (pc c + 1) /\
     read_ongoing (clock_ticks k c) = (k <? 8)%nat) /\
  (let c8 := clock_ticks 8 c in
   ck_half_cycle c8 = 0 /\
   instruction_latch c8 = d (bus 6 (pins (clock_ticks 6 c)))).
Proof.
  intros Hone Hst Hhc Hflag.
  remember (d (bus 6 (pins (clock_ticks 6 c)))) as b eqn:Hb.
  split; [| split; [| split]].
  - destruct (@cpu_clock_overlap (set_pins c (bus 0 (pins c))) Hone Hst)
      as (_ & _ & _ & _ & _ & _ & Hcalls).
    { change (0 <= ck_half_cycle c < 8). lia. }
    rewrite Hcalls.
    change (read_ongoing (set_pins c (bus 0 (pins c)))) with (read_ongoing c).
    rewrite Hflag. reflexivity.
  - intros k Hk.
    apply (@prefetch_run_invariant c b k Hone Hst Hhc Hflag Hb Hk).
  - intros k Hk.
    destruct (@prefetch_run_invariant c b k Hone Hst Hhc Hflag Hb)
      as (_ & _ & Hr & Hp & Ha & _); [lia |].
    split; [apply Ha; lia |]. split.
    + rewrite Hp. destruct (Z.eqb_spec (Z.of_nat k) 0); [lia | reflexivity].
    + rewrite Hr.
      destruct (Z.ltb_spec 0 (Z.of_nat k)); [| lia].
      destruct (Z.ltb_spec (Z.of_nat k) 8); destruct (Nat.ltb_spec k 8);
        simpl; try reflexivity; lia.
  - destruct (@prefetch_run_invariant c b 8 Hone Hst Hhc Hflag Hb (le_n 8))
      as (_ & Hh & _ & _ & _ & Hl).
    cbv zeta. split; [exact Hh | apply Hl; lia].
Qed.

(** * Further properties of the bus transactions *)

(** ** The address on the pins *)

Lemma A15_isolated (x : Z) : Z.land (Z.lor x 0x8000) 0x8000 = 0x8000.
Proof.
  apply Z.bits_inj'. intros n _.
  rewrite Z.land_spec, Z.lor_spec.
  destruct (Z.testbit 0x8000 n);
    [rewrite orb_true_r | rewrite andb_false_r]; reflexivity.
Qed.

Lemma low_address_bits (y : Z) : Z.land y 0x7fff = y mod 0x8000.
Proof. change 0x7fff with (Z.ones 15). apply Z.land_ones. lia. Qed.

Lemma address_with_A15 (y : Z) :
  0x8000 <= y < 0x10000 -> Z.lor 0x8000 (Z.land y 0x7fff) = y.
Proof.
  intros Hy.
  assert (Hz : Z.land 0x8000 (Z.land y 0x7fff) = 0).
  { rewrite (Z.land_comm y), Z.land_assoc.
    change (Z.land 0x8000 0x7fff) with 0. apply Z.land_0_l. }
  rewrite <- (Z.lxor_lor _ _ Hz), <- (Z.add_nocarry_lxor _ _ Hz).
  rewrite low_address_bits.
  assert (Hm : y mod 0x8000 = y - 0x8000).
  { symmetry. apply (Z.mod_unique_pos y 0x8000 1); lia. }
  lia.
Qed.

Lemma address_without_A15 (y : Z) :
  0 <= y < 0x8000 ->
  Z.land (Z.lor 0x8000 (Z.land y 0x7fff)) 0x7fff = y.
Proof.
  intros Hy. rewrite Z.land_lor_distr_l.
  change (Z.land 0x8000 0x7fff) with 0. rewrite Z.lor_0_l.
  rewrite <- Z.land_assoc. change (Z.land 0x7fff 0x7fff) with 0x7fff.
  rewrite low_address_bits. apply Z.mod_small. exact Hy.
Qed.

Lemma RANGE_bounds (v l h : Z) : RANGE v l h = true <-> l <= v <= h.
Proof.
  unfold RANGE. rewrite andb_true_iff, !Z.leb_le. reflexivity.
Qed.

(** Write a freshly begun transaction out as a record, its latched
    operands as variables. *)
Ltac begin_transaction :=
  unfold cpu_init_read, cpu_init_write, set_read_ongoing, set_write_ongoing,
    set_a_latch, set_d_latch;
  cbn [pins main_bus_set vram_bus_set state read_ongoing write_ongoing
       a_latch d_latch ck_half_cycle pc instruction_latch regs];
  repeat match goal with
         | |- context [u16 ?x] => generalize (u16 x); intro
         | |- context [u8 ?x] => generalize (u8 x); intro
         end.

(** Symbolic run of a transaction on a core whose fields are variables:
    evaluate the steps, then settle the region tests. *)
Ltac run_transaction :=
  cbn -[Z.lor Z.land RANGE];
  repeat match goal with
         | |- context [RANGE ?v ?l ?h] =>
             let E := fresh "Hreg" in
             destruct (RANGE v l h) eqn:E; cbn -[Z.lor Z.land RANGE]
         end.

(** X1: a read or write begun at half-cycle 0 at a 16-bit address has that
    address, all sixteen bits, on the address pins once the step at
    half-cycle 2 has run and until the transaction completes, whatever the
    pins held before. *)
Theorem address_pins_settled (c : cpu_t) (addr data dest : Z) (k : nat) :
  ck_half_cycle c = 0 ->
  0 <= addr < 0x10000 ->
  (3 <= k <= 8)%nat ->
  a (pins (fst (read_ticks k (cpu_init_read c addr, dest)))) = addr /\
  a (pins (write_ticks k (cpu_init_write c addr data))) = addr.
Proof.
  intros Hhc Haddr Hk.
  assert (Hlatch : u16 addr = addr) by (apply Z.mod_small; exact Haddr).
  destruct c as [[pa pd prd pwr pcs pphi] mb vb st ro wo al dl hc pcv il r].
  cbn in Hhc. subst hc.
  unfold cpu_init_read, cpu_init_write. rewrite !Hlatch. begin_transaction.
  do 3 (destruct k as [| k]; [lia |]).
  do 6 (destruct k as [| k];
        [split; run_transaction; rewrite ?A15_isolated;
         repeat match goal with
                | H : RANGE _ _ _ = true |- _ => apply RANGE_bounds in H
                | H : RANGE _ _ _ = false |- _ =>
                    apply not_true_iff_false in H; rewrite RANGE_bounds in H
                end;
         first [apply address_without_A15; lia | apply address_with_A15; lia]
        |]).
  lia.
Qed.

(** ** Strobes and data during a transaction *)

(** X2: during a read begun at half-cycle 0 the read strobe is low and the
    write strobe high after every one of the eight ticks, completion
    included; the read never drives the data pins; and the destination keeps
    its old byte until the step at half-cycle 6 has run, after which it holds
    the byte on the data pins. *)
Theorem read_transaction_pins (c : cpu_t) (addr dest : Z) (k : nat) :
  ck_half_cycle c = 0 ->
  (1 <= k <= 8)%nat ->
  let s := read_ticks k (cpu_init_read c addr, dest) in
  rd (pins (fst s)) = false /\ wr (pins (fst s)) = true /\
  d (pins (fst s)) = d (pins c) /\
  snd s = (if (k <? 7)%nat then dest else d (pins c)).
Proof.
  intros Hhc Hk.
  destruct c as [[pa pd prd pwr pcs pphi] mb vb st ro wo al dl hc pcv il r].
  cbn in Hhc. subst hc. cbv zeta. begin_transaction.
  destruct k as [| k]; [lia |].
  do 8 (destruct k as [| k];
        [run_transaction; repeat split; reflexivity |]).
  lia.
Qed.

(** X3: the strobes of a write begun at half-cycle 0, after [k] of its
    eight ticks.  For a latched address in the ROM or RAM region the write
    strobe is low exactly after the steps at half-cycles 3, 4 and 5 and high
    otherwise, the read strobe is low only after the step at half-cycle 0,
    and the data pins carry the latched byte from the step at half-cycle 3
    on.  For any other address the write strobe stays high, the read strobe
    stays low and the data pins are never driven. *)
Theorem write_strobe_window (c : cpu_t) (addr data : Z) (k : nat) :
  ck_half_cycle c = 0 ->
  (1 <= k <= 8)%nat ->
  let w := write_ticks k (cpu_init_write c addr data) in
  (in_rom (u16 addr) || in_ram (u16 addr) = true ->
   wr (pins w) = negb ((4 <=? k)%nat && (k <=? 6)%nat) /\
   rd (pins w) = (2 <=? k)%nat /\
   d (pins w) = (if (k <=? 3)%nat then d (pins c) else u8 data)) /\
  (in_rom (u16 addr) || in_ram (u16 addr) = false ->
   wr (pins w) = true /\ rd (pins w) = false /\ d (pins w) = d (pins c)).
Proof.
  intros Hhc Hk.
  destruct c as [[pa pd prd pwr pcs pphi] mb vb st ro wo al dl hc pcv il r].
  cbn in Hhc. subst hc. cbv zeta. unfold in_rom, in_ram. begin_transaction.
  destruct k as [| k]; [lia |].
  do 8 (destruct k as [| k];
        [split; run_transaction; intros Hcase; try discriminate Hcase;
         repeat split; reflexivity |]).
  lia.
Qed.

(** X4: a write driven to completion and then a read of the same address
    driven to completion, with nobody else on the bus.  Both transactions end
    with their flag cleared and the clock back at half-cycle 0.  For a ROM
    or RAM address the read samples the byte that was written; for any other
    address the write never reached the data pins and the read samples what
    they held before. *)
Theorem write_read_round_trip (c : cpu_t) (addr data dest : Z) :
  ck_half_cycle c = 0 ->
  let w := write_ticks 8 (cpu_init_write c addr data) in
  let s := read_ticks 8 (cpu_init_read w addr, dest) in
  (write_ongoing w = false /\ ck_half_cycle w = 0) /\
  (read_ongoing (fst s) = false /\ ck_half_cycle (fst s) = 0) /\
  (in_rom (u16 addr) || in_ram (u16 addr) = true -> snd s = u8 data) /\
  (in_rom (u16 addr) || in_ram (u16 addr) = false -> snd s = d (pins c)).
Proof.
  intros Hhc w s.
  assert (Hw : (write_ongoing w = false /\ ck_half_cycle w = 0) /\
               d (pins w) =
               if in_rom (u16 addr) || in_ram (u16 addr)
               then u8 data else d (pins c)).
  { subst w.
    destruct c as [[pa pd prd pwr pcs pphi] mb vb st ro wo al dl hc pcv il r].
    cbn in Hhc. subst hc. unfold in_rom, in_ram. begin_transaction.
    split; [split |]; run_transaction; reflexivity. }
  destruct Hw as [Hdone Hdata]. split; [exact Hdone |].
  destruct Hdone as [_ Hhw].
  assert (Hs : (read_ongoing (fst s) = false /\ ck_half_cycle (fst s) = 0) /\
               snd s = d (pins w)).
  { subst s. clearbody w.
    destruct w as [[pa pd prd pwr pcs pphi] mb vb st ro wo al dl hc pcv il r].
    cbn in Hhw. subst hc. begin_transaction.
    split; [split |]; run_transaction; reflexivity. }
  destruct Hs as [Hread Hbyte]. split; [exact Hread |].
  rewrite Hbyte, Hdata.
  split; intros Hcase; rewrite Hcase; reflexivity.
Qed.


(** * Further properties of the driver *)

(** ** The fetch state *)

Lemma cpu_clock_calls_fetch (c : cpu_t) :
  state c = ST_FETCH ->
  cpu_clock_calls c =
  (fst (opcode_fetch c) ++ [Call_update_clocks],
   cpu_update_clocks (snd (opcode_fetch c))).
Proof.
  intros Hst. unfold cpu_clock_calls. rewrite Hst.
  destruct (opcode_fetch c) as [l c2]. reflexivity.
Qed.


Lemma cpu_clock_fetch (c : cpu_t) :
  state c = ST_FETCH ->
  0 <= ck_half_cycle c < 8 ->
  let c' := cpu_clock c in
  state c' = (if ck_half_cycle c =? 7 then ST_EXECUTE else ST_FETCH) /\
  ck_half_cycle c' = (ck_half_cycle c + 1) mod 8 /\
  read_ongoing c' = negb (ck_half_cycle c =? 7) /\
  pc c' = (if read_ongoing c then pc c else u16 (pc c + 1)) /\
  a_latch c' = (if read_ongoing c then a_latch c else u16 (pc c)) /\
  instruction_latch c' =
    (if ck_half_cycle c =? 6 then d (pins c) else instruction_latch c).
Proof.
  intros Hst Hhc c'. subst c'. unfold cpu_clock.
  rewrite (cpu_clock_calls_fetch c Hst). cbn [snd].
  destruct (opcode_fetch_address c) as [Hbegin Hkeep].
  split; [| split; [| split; [| split; [| split]]]].
  - change (state (snd (opcode_fetch c)) =
            if ck_half_cycle c =? 7 then ST_EXECUTE else ST_FETCH).
    rewrite opcode_fetch_state, Hst. reflexivity.
  - rewrite cpu_update_clocks_next; rewrite opcode_fetch_half_cycle;
      [reflexivity | exact Hhc].
  - apply opcode_fetch_flag.
  - change (pc (snd (opcode_fetch c)) =
            if read_ongoing c then pc c else u16 (pc c + 1)).
    destruct (read_ongoing c).
    + apply (proj2 (Hkeep eq_refl)).
    + apply (proj2 (Hbegin eq_refl)).
  - change (a_latch (snd (opcode_fetch c)) =
            if read_ongoing c then a_latch c else u16 (pc c)).
    destruct (read_ongoing c).
    + apply (proj1 (Hkeep eq_refl)).
    + apply (proj1 (Hbegin eq_refl)).
  - apply opcode_fetch_latch.
Qed.

(** The core after [k] ticks of a fetch begun at half-cycle 0, the bus
    acting before each tick; [b] is the byte the bus shows before the tick at
    half-cycle 6. *)
Lemma fetch_run_invariant (c : cpu_t) (b : Z) (k : nat) :
  state c = ST_FETCH ->
  ck_half_cycle c = 0 ->
  read_ongoing c = false ->
  b = d (bus 6 (pins (clock_ticks 6 c))) ->
  (k <= 8)%nat ->
  let x := clock_ticks k c in
  state x = (if Z.of_nat k <? 8 then ST_FETCH else ST_EXECUTE) /\
  ck_half_cycle x = Z.of_nat k mod 8 /\
  read_ongoing x = (0 <? Z.of_nat k) && (Z.of_nat k <? 8) /\
  pc x = (if Z.of_nat k =? 0 then pc c else u16 (pc c + 1)) /\
  ((1 <= k)%nat -> a_latch x = u16 (pc c)) /\
  ((7 <= k)%nat -> instruction_latch x = b).
Proof.
  intros Hst Hhc Hflag Hb. induction k as [| k IH]; intros Hk.
  - cbv zeta. cbn [clock_ticks]. rewrite Hst, Hhc, Hflag.
    repeat split; try reflexivity; lia.
  - destruct IH as (IHs & IHh & IHr & IHp & IHa & IHl); [lia |].
    cbv zeta. cbn [clock_ticks].
    set (x := clock_ticks k c) in *.
    rewrite Z.mod_small in IHh by lia.
    destruct (Z.ltb_spec (Z.of_nat k) 8) as [_ | Hge]; [| lia].
    destruct (@cpu_clock_fetch (set_pins x (bus k (pins x))) IHs)
      as (Hs & Hh & Hr & Hp & Ha & Hl).
    { change (0 <= ck_half_cycle x < 8). lia. }
    change (ck_half_cycle (set_pins x (bus k (pins x))))
      with (ck_half_cycle x) in *.
    change (read_ongoing (set_pins x (bus k (pins x))))
      with (read_ongoing x) in *.
    change (pc (set_pins x (bus k (pins x)))) with (pc x) in *.
    change (a_latch (set_pins x (bus k (pins x)))) with (a_latch x) in *.
    change (instruction_latch (set_pins x (bus k (pins x))))
      with (instruction_latch x) in *.
    change (pins (set_pins x (bus k (pins x)))) with (bus k (pins x)) in *.
    rewrite Hs, Hh, Hr, Hp, Ha, IHh, IHr, IHp. rewrite Nat2Z.inj_succ.
    split; [| split; [reflexivity | split; [| split; [| split]]]].
    + destruct (Z.eqb_spec (Z.of_nat k) 7);
        destruct (Z.ltb_spec (Z.succ (Z.of_nat k)) 8);
        try reflexivity; lia.
    + destruct (Z.eqb_spec (Z.of_nat k) 7);
        destruct (Z.ltb_spec 0 (Z.succ (Z.of_nat k)));
        destruct (Z.ltb_spec (Z.succ (Z.of_nat k)) 8);
        simpl; try reflexivity; lia.
    + destruct (Z.eqb_spec (Z.succ (Z.of_nat k)) 0); [lia |].
      destruct (Z.eqb_spec (Z.of_nat k) 0);
        destruct (Z.ltb_spec 0 (Z.of_nat k));
        simpl; try reflexivity; lia.
    + intros _.
      destruct (Z.eqb_spec (Z.of_nat k) 0);
        destruct (Z.ltb_spec 0 (Z.of_nat k));
        simpl; first [reflexivity | lia | apply IHa; lia].
    + intros H7. rewrite Hl, IHh.
      destruct (Z.eqb_spec (Z.of_nat k) 6) as [E | E].
      * assert (k = 6%nat) by lia. subst k b. reflexivity.
      * apply IHl. lia.
Qed.

(** X7: the first fetch.  From [ST_FETCH] at half-cycle 0 with no read in
    flight, whatever the handlers are and whatever the bus does, the state is
    [ST_FETCH] after each of the first seven ticks and [ST_EXECUTE] after the
    eighth; by then the read of the old [pc] has completed, [pc] has been
    incremented once, and [instruction_latch] holds the byte the bus showed
    before the tick at half-cycle 6. *)
Theorem fetch_run (c : cpu_t) :
  state c = ST_FETCH ->
  ck_half_cycle c = 0 ->
  read_ongoing c = false ->
  (forall k : nat, (k < 8)%nat -> state (clock_ticks k c) = ST_FETCH) /\
  (let c8 := clock_ticks 8 c in
   state c8 = ST_EXECUTE /\ ck_half_cycle c8 = 0 /\ read_ongoing c8 = false /\
   pc c8 = u16 (pc c + 1) /\ a_latch c8 = u16 (pc c) /\
   instruction_latch c8 = d (bus 6 (pins (clock_ticks 6 c)))).
Proof.
  intros Hst Hhc Hflag.
  remember (d (bus 6 (pins (clock_ticks 6 c)))) as b eqn:Hb.
  split.
  - intros k Hk.
    destruct (@fetch_run_invariant c b k Hst Hhc Hflag Hb) as (Hs & _); [lia |].
    rewrite Hs. destruct (Z.ltb_spec (Z.of_nat k) 8); [reflexivity | lia].
  - destruct (@fetch_run_invariant c b 8 Hst Hhc Hflag Hb (le_n 8))
      as (Hs & Hh & Hr & Hp & Ha & Hl).
    cbv zeta. split; [exact Hs |]. split; [exact Hh |]. split; [exact Hr |].
    split; [exact Hp |]. split; [apply Ha; lia | apply Hl; lia].
Qed.

(** ** Test mode and the clock *)

Lemma cpu_clock_test (c : cpu_t) :
  state c = ST_TEST -> cpu_clock c = cpu_update_clocks c.
Proof.
  intros Hst. unfold cpu_clock, cpu_clock_calls. rewrite Hst. reflexivity.
Qed.

(** X8: the driver never leaves [ST_TEST].  After any number of ticks the
    state is still [ST_TEST], and the program counter, the latches, both
    in-flight flags and the rest of the core are what they were; only the
    clock runs on, [n] half-cycles further modulo 8. *)
Theorem test_mode_absorbing (c : cpu_t) (n : nat) :
  state c = ST_TEST ->
  let x := clock_ticks n c in
  state x = ST_TEST /\
  (pc x = pc c /\ instruction_latch x = instruction_latch c /\
   a_latch x = a_latch c /\ d_latch x = d_latch c /\
   read_ongoing x = read_ongoing c /\ write_ongoing x = write_ongoing c /\
   regs x = regs c) /\
  (0 <= ck_half_cycle c < 8 ->
   ck_half_cycle x = (ck_half_cycle c + Z.of_nat n) mod 8).
Proof.
  intros Hst. induction n as [| n IH]; cbv zeta.
  - cbn [clock_ticks]. split; [exact Hst |]. split; [repeat split |].
    intros Hhc. rewrite Z.add_0_r, Z.mod_small by exact Hhc. reflexivity.
  - cbv zeta in IH. destruct IH as (IHs & IHf & IHh).
    cbn [clock_ticks]. set (x := clock_ticks n c) in *.
    rewrite cpu_clock_test by exact IHs.
    split; [exact IHs |]. split; [exact IHf |].
    intros Hhc. rewrite cpu_update_clocks_half_cycle.
    change (ck_half_cycle (set_pins x (bus n (pins x))))
      with (ck_half_cycle x).
    rewrite (IHh Hhc). unfold u8.
    assert (Hb : 0 <= (ck_half_cycle c + Z.of_nat n) mod 8 < 8)
      by (apply Z.mod_pos_bound; lia).
    rewrite (Z.mod_small _ 256) by lia.
    rewrite Zplus_mod_idemp_l. f_equal. lia.
Qed.

(** X9: the clock invariant holds after every tick from any core at all,
    whatever the state and whatever the handlers or the bus did, even to the
    counter itself: [ck_half_cycle] is within 0..7, [phi] is the negation of
    its bit 2, and so [phi] is low exactly on half-cycles 4 to 7. *)
Theorem tick_clock_invariant (c : cpu_t) (n : nat) :
  let x := clock_ticks (S n) c in
  0 <= ck_half_cycle x < 8 /\
  phi (pins x) = negb (Z.testbit (ck_half_cycle x) 2) /\
  (phi (pins x) = false <-> 4 <= ck_half_cycle x <= 7).
Proof.
  cbv zeta. cbn [clock_ticks].
  set (y := set_pins (clock_ticks n c) (bus n (pins (clock_ticks n c)))).
  unfold cpu_clock, cpu_clock_calls.
  match goal with
  | |- context [let '(l, c0) := ?t in _] => destruct t as [l c2]
  end.
  cbn [snd]. apply cpu_update_clocks_phi.
Qed.

(** ** Fetching from a memory on the bus *)

(** A memory is the only other participant: before each tick, while the read
    strobe is low, it drives the data pins with the byte at the address on
    A0-A14, and it leaves the pins alone otherwise. *)
Definition memory_on_bus (mem : Z -> Z) : Prop :=
  forall (k : nat) (p : pins_t),
    bus k p = if rd p then p else set_d p (u8 (mem (Z.land (a p) 0x7fff))).

Lemma memory_on_bus_lines (mem : Z -> Z) (k : nat) (p : pins_t) :
  memory_on_bus mem -> rd (bus k p) = rd p /\ a (bus k p) = a p.
Proof.
  intros Hbus. rewrite Hbus. destruct (rd p) eqn:E; split; auto.
Qed.

Lemma low_bits_A15_set (x : Z) :
  Z.land (Z.lor x 0x8000) 0x7fff = Z.land x 0x7fff.
Proof.
  rewrite Z.land_lor_distr_l.
  change (Z.land 0x8000 0x7fff) with 0. apply Z.lor_0_r.
Qed.

Lemma low_bits_latched (x y : Z) :
  Z.land (Z.lor (Z.land x 0x8000) (Z.land y 0x7fff)) 0x7fff = Z.land y 0x7fff.
Proof.
  rewrite Z.land_lor_distr_l, <- !Z.land_assoc.
  change (Z.land 0x8000 0x7fff) with 0.
  change (Z.land 0x7fff 0x7fff) with 0x7fff.
  rewrite Z.land_0_r. apply Z.lor_0_l.
Qed.

Lemma low_bits_A15_cleared (x : Z) :
  Z.land (Z.land x 0x7fff) 0x7fff = Z.land x 0x7fff.
Proof.
  rewrite <- Z.land_assoc. reflexivity.
Qed.

(** The read strobe and the low address bits after one step of a read. *)
Lemma cpu_handle_read_lines (c : cpu_t) (dest : Z) :
  let c' := snd (fst (cpu_handle_read c dest)) in
  rd (pins c') = (if ck_half_cycle c =? 0 then false else rd (pins c)) /\
  Z.land (a (pins c')) 0x7fff =
    (if ck_half_cycle c =? 1 then Z.land (a_latch c) 0x7fff
     else Z.land (a (pins c)) 0x7fff).
Proof.
  cbv zeta. unfold cpu_handle_read.
  destruct (ck_half_cycle c) as [| p | p]; switch_cases;
    cbn -[Z.lor Z.land RANGE];
    repeat match goal with
           | |- context [if ?b then _ else _] =>
               destruct b; cbn -[Z.lor Z.land RANGE]
           end;
    rewrite ?low_bits_A15_set, ?low_bits_latched, ?low_bits_A15_cleared;
    split; reflexivity.
Qed.

Lemma cpu_clock_fetch_lines (c : cpu_t) :
  state c = ST_FETCH ->
  let c' := cpu_clock c in
  rd (pins c') = (if ck_half_cycle c =? 0 then false else rd (pins c)) /\
  Z.land (a (pins c')) 0x7fff =
    (if ck_half_cycle c =? 1
     then Z.land (if read_ongoing c then a_latch c else u16 (pc c)) 0x7fff
     else Z.land (a (pins c)) 0x7fff).
Proof.
  intros Hst. cbv zeta. unfold cpu_clock.
  rewrite (cpu_clock_calls_fetch c Hst). cbn [snd].
  rewrite opcode_fetch_core. cbv zeta.
  set (r := cpu_handle_read (fetch_begun c) (instruction_latch (fetch_begun c))).
  assert (Hpins : pins (cpu_update_clocks
                          (if fst (fst r)
                           then set_instruction_latch (snd (fst r)) (snd r)
                           else set_state
                                  (set_instruction_latch (snd (fst r)) (snd r))
                                  ST_EXECUTE))
                  = set_phi (pins (snd (fst r)))
                      (phi (pins (cpu_update_clocks (snd (fst r)))))).
  { destruct (fst (fst r)); reflexivity. }
  rewrite Hpins. cbn [rd a set_phi].
  destruct (cpu_handle_read_lines (fetch_begun c)
              (instruction_latch (fetch_begun c))) as [Hrd Ha].
  fold r in Hrd, Ha. rewrite Hrd, Ha.
  rewrite fetch_begun_half_cycle, fetch_begun_pins.
  unfold fetch_begun. destruct (read_ongoing c); split; reflexivity.
Qed.

Lemma fetch_run_lines (mem : Z -> Z) (c : cpu_t) (k : nat) :
  memory_on_bus mem ->
  state c = ST_FETCH ->
  ck_half_cycle c = 0 ->
  read_ongoing c = false ->
  (k <= 7)%nat ->
  let x := clock_ticks k c in
  ((1 <= k)%nat -> rd (pins x) = false) /\
  ((2 <= k)%nat -> Z.land (a (pins x)) 0x7fff = Z.land (u16 (pc c)) 0x7fff).
Proof.
  intros Hbus Hst Hhc Hflag. induction k as [| k IH]; intros Hk.
  - cbv zeta. split; intros; lia.
  - destruct IH as [IHrd IHa]; [lia |]. cbv zeta.
    destruct (@fetch_run_invariant c _ k Hst Hhc Hflag eq_refl)
      as (Hs & Hh & Hr & _ & Hal & _); [lia |].
    cbn [clock_ticks]. set (x := clock_ticks k c) in *.
    rewrite Z.mod_small in Hh by lia.
    destruct (Z.ltb_spec (Z.of_nat k) 8) as [_ | Hge]; [| lia].
    destruct (memory_on_bus_lines k (pins x) Hbus) as [Hbrd Hba].
    destruct (@cpu_clock_fetch_lines (set_pins x (bus k (pins x))) Hs)
      as [Hrd Ha].
    change (ck_half_cycle (set_pins x (bus k (pins x))))
      with (ck_half_cycle x) in *.
    change (read_ongoing (set_pins x (bus k (pins x))))
      with (read_ongoing x) in *.
    change (pc (set_pins x (bus k (pins x)))) with (pc x) in *.
    change (a_latch (set_pins x (bus k (pins x)))) with (a_latch x) in *.
    change (pins (set_pins x (bus k (pins x)))) with (bus k (pins x)) in *.
    rewrite Hrd, Ha, Hbrd, Hba, Hh, Hr. split.
    + intros _. destruct (Z.eqb_spec (Z.of_nat k) 0); [reflexivity |].
      apply IHrd. lia.
    + intros H2. destruct (Z.eqb_spec (Z.of_nat k) 1) as [E | E].
      * destruct (Z.ltb_spec 0 (Z.of_nat k)); [| lia]. cbn [andb].
        rewrite Hal by lia. reflexivity.
      * apply IHa. lia.
Qed.

(** X10: with a memory on the bus, the first fetch latches the opcode stored
    at [pc]: from [ST_FETCH] at half-cycle 0 with no read in flight and [pc]
    in the ROM region, eight ticks leave the byte of the memory at [pc] in
    [instruction_latch]. *)
Theorem fetch_from_memory (mem : Z -> Z) (c : cpu_t) :
  memory_on_bus mem ->
  state c = ST_FETCH ->
  ck_half_cycle c = 0 ->
  read_ongoing c = false ->
  0 <= pc c < 0x8000 ->
  instruction_latch (clock_ticks 8 c) = u8 (mem (pc c)) /\
  state (clock_ticks 8 c) = ST_EXECUTE /\
  pc (clock_ticks 8 c) = pc c + 1.
Proof.
  intros Hbus Hst Hhc Hflag Hpc.
  destruct (@fetch_run_invariant c _ 8 Hst Hhc Hflag eq_refl (le_n 8))
    as (Hs & _ & _ & Hp & _ & Hl).
  destruct (@fetch_run_lines mem c 6 Hbus Hst Hhc Hflag) as [Hrd Ha]; [lia |].
  split; [| split].
  - rewrite Hl by lia. rewrite Hbus, Hrd by lia. cbn [d set_d].
    rewrite Ha by lia. unfold u16.
    rewrite (Z.mod_small (pc c) 65536) by lia.
    rewrite low_address_bits, Z.mod_small by lia. reflexivity.
  - exact Hs.
  - rewrite Hp. cbn. unfold u16. apply Z.mod_small. lia.
Qed.

(** ** The load block of the dispatch table *)

(** X11: opcodes 0x40..0x7f are decoded by their register fields.  0x76 is
    not a load and has the no-op handler; otherwise source field 6 (bits
    0-2) selects [ld_r_hl], destination field 6 (bits 3-5) selects
    [ld_hl_r], and every other opcode of the block is [ld_r_r]. *)
Theorem ld_block_decode (op : Z) :
  0x40 <= op <= 0x7f ->
  dispatch op =
    if op =? 0x76 then nop
    else if op mod 8 =? 6 then ld_r_hl
    else if (op / 8) mod 8 =? 6 then ld_hl_r
    else ld_r_r.
Proof.
  intros Hop.
  rewrite <- (Z2Nat.id op) by lia.
  assert (Hn : (64 <= Z.to_nat op <= 127)%nat) by lia.
  generalize dependent (Z.to_nat op). clear Hop. intros n Hn.
  do 64 (destruct n as [| n]; [lia |]).
  do 64 (destruct n as [| n]; [reflexivity |]).
  lia.
Qed.

End Core.

(** * Concrete runs *)

(** A machine to run the theorems on: no further core state, opaque bus
    arbiters, every pin low before reset. *)
Definition lr0 : lr35902_t unit :=
  mkLr35902 (mkPins 0 0 false false false false) tt tt.

Definition reset0 : cpu_t unit unit := cpu_init tt lr0.

(** A stand-in for the handlers of [cpu_instructions.hpp]: every opcode is a
    one-cycle no-op that touches nothing and reports its final cycle. *)
Definition run_nop (h : cpu_instruction_t) (c : cpu_t unit unit)
  : instruction_state_t * cpu_t unit unit :=
  (IS_LAST_CYCLE, c).

(** A handler that never finishes, for the other branch of the driver. *)
Definition run_busy (h : cpu_instruction_t) (c : cpu_t unit unit)
  : instruction_state_t * cpu_t unit unit :=
  (IS_MORE_CYCLES, c).

(** A bus on which nobody else drives a pin. *)
Definition quiet_bus (k : nat) (p : pins_t) : pins_t := p.

(** A ROM read and a ROM write of 0x0150, each after its step at
    half-cycle 0. *)
Definition rom_read_at_1 : cpu_t unit unit :=
  fst (read_ticks 1 (cpu_init_read reset0 0x0150, 0)).
Definition rom_write_at_1 : cpu_t unit unit :=
  write_ticks 1 (cpu_init_write reset0 0x0150 0x42).

(** Writes of 0x42 to ROM (0x0150) and to HRAM (0xff80), each after its
    steps at half-cycles 0, 1 and 2. *)
Definition rom_write_at_3 : cpu_t unit unit :=
  write_ticks 3 (cpu_init_write reset0 0x0150 0x42).
Definition hram_write_at_3 : cpu_t unit unit :=
  write_ticks 3 (cpu_init_write reset0 0xff80 0x42).

(** The core put in test mode right after reset and ticked three times. *)
Definition test_at_3 : cpu_t unit unit :=
  clock_ticks run_nop quiet_bus 3 (set_state reset0 ST_TEST).

(** The core in [ST_EXECUTE] at half-cycle 0 with opcode 0x00 latched and
    no read in flight: reset followed by the eight ticks of the first
    fetch. *)
Definition execute_at_0 : cpu_t unit unit :=
  clock_ticks run_nop quiet_bus 8 reset0.

(** C1 as the spec states it fails on a ROM read: the step at half-cycle 1
    leaves the read strobe active (false) instead of deasserting it.  It also
    fails on a ROM write: that step does change a strobe, taking the read
    strobe from false to true. *)
Lemma half_cycle1_read_keeps_strobe :
  (ck_half_cycle rom_read_at_1 = 1 /\
   in_rom (a_latch rom_read_at_1) = true /\
   rd (pins rom_read_at_1) = false /\
   rd (pins (snd (fst (cpu_handle_read rom_read_at_1 0)))) = false) /\
  (ck_half_cycle rom_write_at_1 = 1 /\
   in_rom (a_latch rom_write_at_1) = true /\
   rd (pins rom_write_at_1) = false /\
   rd (pins (snd (cpu_handle_write rom_write_at_1))) = true).
Proof. vm_compute. repeat split. Qed.

Lemma half_cycle1_strobes_witness :
  ck_half_cycle rom_write_at_1 = 1 /\
  in_rom (a_latch rom_write_at_1) || in_ram (a_latch rom_write_at_1) = true /\
  rd (pins (snd (cpu_handle_write rom_write_at_1))) = true /\
  rd (pins (snd (fst (cpu_handle_read rom_write_at_1 0)))) =
    rd (pins rom_write_at_1).
Proof.
  assert (Hhc : ck_half_cycle rom_write_at_1 = 1) by reflexivity.
  assert (Hreg : in_rom (a_latch rom_write_at_1)
                 || in_ram (a_latch rom_write_at_1) = true) by reflexivity.
  split; [exact Hhc |]. split; [exact Hreg |].
  destruct (@half_cycle1_strobes unit unit rom_write_at_1 0 Hhc) as [Hext _].
  destruct (Hext Hreg) as [[Hw _] [Hr _]].
  split; [exact Hw | exact Hr].
Defined.

(** C2 as the spec states it fails on an HRAM write: the step at half-cycle
    3 leaves the write strobe inactive (true) and the data pins at 0, while
    [d_latch] holds 0x42. *)
Lemma half_cycle3_hram_write_idle :
  ck_half_cycle hram_write_at_3 = 3 /\
  a_latch hram_write_at_3 = 0xff80 /\
  d_latch hram_write_at_3 = 0x42 /\
  wr (pins (snd (cpu_handle_write hram_write_at_3))) = true /\
  d (pins (snd (cpu_handle_write hram_write_at_3))) = 0.
Proof. vm_compute. repeat split. Qed.

Lemma half_cycle3_write_witness :
  ck_half_cycle rom_write_at_3 = 3 /\
  in_rom (a_latch rom_write_at_3) || in_ram (a_latch rom_write_at_3) = true /\
  wr (pins (snd (cpu_handle_write rom_write_at_3))) = false /\
  d (pins (snd (cpu_handle_write rom_write_at_3))) = 0x42.
Proof.
  assert (Hhc : ck_half_cycle rom_write_at_3 = 3) by reflexivity.
  assert (Hreg : in_rom (a_latch rom_write_at_3)
                 || in_ram (a_latch rom_write_at_3) = true) by reflexivity.
  split; [exact Hhc |]. split; [exact Hreg |].
  destruct (@half_cycle3_write unit unit rom_write_at_3 Hhc) as [Hext _].
  exact (Hext Hreg).
Defined.

(** A run on which the latch and the completion of the overlapped fetch
    fall on different ticks: the data pins show 0xc3 up to the tick at
    half-cycle 6 and 0x99 before the tick at half-cycle 7. *)
Definition late_bus (k : nat) (p : pins_t) : pins_t :=
  set_d p (if (k <? 7)%nat then 0xc3 else 0x99).

Definition prefetch_at_6 : cpu_t unit unit :=
  clock_ticks run_nop late_bus 6 execute_at_0.

Definition prefetch_at_7 : cpu_t unit unit :=
  clock_ticks run_nop late_bus 7 execute_at_0.

(** C3 as the spec states it fails on the moment of the store.  The tick at
    half-cycle 6 already puts the fetched byte 0xc3 into
    [instruction_latch] while the read is still in flight; the tick at
    half-cycle 7, which completes the read, therefore calls the handler of
    the new opcode 0xc3 and stores nothing, although the data pins show 0x99
    by then. *)
Lemma latch_stored_before_completion :
  (state prefetch_at_6 = ST_EXECUTE /\ ck_half_cycle prefetch_at_6 = 6 /\
   read_ongoing prefetch_at_6 = true /\ instruction_latch prefetch_at_6 = 0) /\
  (prefetch_at_7 =
     cpu_clock run_nop
       (set_pins prefetch_at_6 (late_bus 6 (pins prefetch_at_6))) /\
   instruction_latch prefetch_at_7 = 0xc3 /\
   read_ongoing prefetch_at_7 = true /\ ck_half_cycle prefetch_at_7 = 7) /\
  (let c := set_pins prefetch_at_7 (late_bus 7 (pins prefetch_at_7)) in
   d (pins c) = 0x99 /\
   fst (cpu_clock_calls run_nop c) =
     [Call_instruction 0xc3 jp_nn; Call_handle_read; Call_update_clocks] /\
   instruction_latch (cpu_clock run_nop c) = 0xc3 /\
   read_ongoing (cpu_clock run_nop c) = false /\
   state (cpu_clock run_nop c) = ST_EXECUTE).
Proof. vm_compute. repeat split. Qed.

Lemma execute_tick_witness :
  state execute_at_0 = ST_EXECUTE /\
  nth_error instruction_table (Z.to_nat (instruction_latch execute_at_0))
    = Some nop /\
  fst (cpu_clock_calls run_nop execute_at_0) =
    [Call_instruction 0 nop; Call_init_read 1; Call_handle_read;
     Call_update_clocks] /\
  a_latch (cpu_clock run_nop execute_at_0) = 1 /\
  pc (cpu_clock run_nop execute_at_0) = 2 /\
  fst (cpu_clock_calls run_busy execute_at_0) =
    [Call_instruction 0 nop; Call_update_clocks] /\
  (state prefetch_at_6 = ST_EXECUTE /\
   instruction_latch
     (cpu_clock run_nop
        (set_pins prefetch_at_6 (late_bus 6 (pins prefetch_at_6)))) = 0xc3 /\
   read_ongoing
     (cpu_clock run_nop
        (set_pins prefetch_at_6 (late_bus 6 (pins prefetch_at_6)))) = true).
Proof.
  assert (Hst : state execute_at_0 = ST_EXECUTE) by reflexivity.
  assert (Hop : 0 <= instruction_latch execute_at_0 <= 255) by (simpl; lia).
  pose proof (@execute_tick unit unit run_nop execute_at_0 Hst) as Hnop.
  pose proof (@execute_tick unit unit run_busy execute_at_0 Hst) as Hbusy.
  cbv zeta in Hnop, Hbusy.
  destruct Hnop as (Htable & _ & Hlast & _).
  destruct Hbusy as (_ & _ & _ & Hmore).
  destruct (Hlast eq_refl) as (Hcalls & Hbegin & _).
  destruct (Hbegin eq_refl) as [Ha Hpc].
  destruct (Hmore eq_refl) as [Hquiet _].
  assert (Hst6 : state (set_pins prefetch_at_6
                          (late_bus 6 (pins prefetch_at_6))) = ST_EXECUTE)
    by reflexivity.
  pose proof (@execute_tick unit unit run_nop
                (set_pins prefetch_at_6 (late_bus 6 (pins prefetch_at_6)))
                Hst6) as H6.
  cbv zeta in H6. destruct H6 as (_ & _ & Hlast6 & _).
  destruct (Hlast6 eq_refl) as (_ & _ & _ & Hsix & _).
  destruct (Hsix eq_refl) as (Hlatch6 & Hflag6 & _).
  split; [exact Hst |]. split; [exact (Htable Hop) |].
  split; [exact Hcalls |]. split; [exact Ha |]. split; [exact Hpc |].
  split; [exact Hquiet |].
  split; [reflexivity | split; [exact Hlatch6 | exact Hflag6]].
Defined.

Lemma region_select_witness :
  ck_half_cycle reset0 = 0 /\
  (in_rom 0x0150 = true /\
   A15 (pins (fst (read_ticks 2 (cpu_init_read reset0 0x0150, 0)))) = true /\
   A15 (pins (fst (read_ticks 3 (cpu_init_read reset0 0x0150, 0)))) = false /\
   cs (pins (fst (read_ticks 3 (cpu_init_read reset0 0x0150, 0)))) = true) /\
  (in_ram 0xa150 = true /\
   cs (pins (write_ticks 2 (cpu_init_write reset0 0xa150 0x42))) = true /\
   cs (pins (write_ticks 3 (cpu_init_write reset0 0xa150 0x42))) = false /\
   A15 (pins (write_ticks 3 (cpu_init_write reset0 0xa150 0x42))) = true) /\
  (in_hram 0xff80 = true /\
   A15 (pins (fst (read_ticks 3 (cpu_init_read reset0 0xff80, 0)))) = true /\
   cs (pins (fst (read_ticks 3 (cpu_init_read reset0 0xff80, 0)))) = true).
Proof.
  assert (Hhc : ck_half_cycle reset0 = 0) by reflexivity.
  assert (H2 : (1 <= 2 <= 8)%nat) by lia.
  assert (H3 : (1 <= 3 <= 8)%nat) by lia.
  split; [exact Hhc |]. split; [| split].
  - destruct (@region_select unit unit reset0 0x0150 0 0 2%nat Hhc H2)
      as (Hrom2 & _).
    destruct (@region_select unit unit reset0 0x0150 0 0 3%nat Hhc H3)
      as (Hrom3 & _).
    destruct (Hrom2 eq_refl) as [[Ha2 _] _].
    destruct (Hrom3 eq_refl) as [[Ha3 Hc3] _].
    split; [reflexivity |]. split; [exact Ha2 |]. split; [exact Ha3 | exact Hc3].
  - destruct (@region_select unit unit reset0 0xa150 0x42 0 2%nat Hhc H2)
      as (_ & Hram2 & _).
    destruct (@region_select unit unit reset0 0xa150 0x42 0 3%nat Hhc H3)
      as (_ & Hram3 & _).
    destruct (Hram2 eq_refl) as [_ [_ Hc2]].
    destruct (Hram3 eq_refl) as [_ [Ha3 Hc3]].
    split; [reflexivity |]. split; [exact Hc2 |]. split; [exact Hc3 | exact Ha3].
  - destruct (@region_select unit unit reset0 0xff80 0 0 3%nat Hhc H3)
      as (_ & _ & Hhram).
    destruct (Hhram eq_refl) as [[Ha Hc] _].
    split; [reflexivity |]. split; [exact Ha | exact Hc].
Defined.

Lemma transaction_completion_witness :
  0 <= ck_half_cycle reset0 < 8 /\
  (let s := read_ticks 6 (cpu_init_read reset0 0x0150, 0) in
   read_ongoing (fst s) = true /\
   fst (fst (cpu_handle_read (fst s) (snd s))) = true /\
   read_ongoing (snd (fst (cpu_handle_read (fst s) (snd s)))) = true) /\
  (let s := read_ticks 7 (cpu_init_read reset0 0x0150, 0) in
   ck_half_cycle (fst s) = 7 /\
   read_ongoing (fst s) = true /\
   fst (fst (cpu_handle_read (fst s) (snd s))) = false /\
   read_ongoing (snd (fst (cpu_handle_read (fst s) (snd s)))) = false) /\
  (let w := write_ticks 7 (cpu_init_write reset0 0x0150 0x42) in
   write_ongoing w = true /\
   fst (cpu_handle_write w) = false /\
   write_ongoing (snd (cpu_handle_write w)) = false).
Proof.
  assert (Hhc : 0 <= ck_half_cycle reset0 < 8) by (simpl; lia).
  pose proof (@transaction_completion unit unit reset0 0x0150 0x42 0 Hhc) as H.
  cbv zeta in H. destruct H as (_ & Hread & Hwrite).
  assert (H6 : (6 <= Z.to_nat (7 - ck_half_cycle reset0))%nat) by (simpl; lia).
  assert (H7 : (7 <= Z.to_nat (7 - ck_half_cycle reset0))%nat) by (simpl; lia).
  destruct (Hread 6%nat H6) as (_ & Hf6 & Hr6 & Hg6).
  destruct (Hread 7%nat H7) as (Hh7 & Hf7 & Hr7 & Hg7).
  destruct (Hwrite 7%nat H7) as (_ & Hwf & Hwr & Hwg).
  split; [exact Hhc |]. cbv zeta.
  split; [split; [exact Hf6 | split; [exact Hr6 | exact Hg6]] |].
  split; [split; [exact Hh7 | split; [exact Hf7 | split; [exact Hr7 | exact Hg7]]] |].
  split; [exact Hwf | split; [exact Hwr | exact Hwg]].
Defined.

Lemma half_cycle_wraparound_witness :
  (forall h c0, ck_half_cycle (snd (run_nop h c0)) = ck_half_cycle c0) /\
  ck_half_cycle (clock_ticks run_nop quiet_bus 13 reset0) = 5 /\
  phi (pins (clock_ticks run_nop quiet_bus 13 reset0)) = false /\
  ck_half_cycle (clock_ticks run_nop quiet_bus 16 reset0) = 0.
Proof.
  assert (Hkeep : forall h c0,
             ck_half_cycle (snd (run_nop h c0)) = ck_half_cycle c0)
    by (intros h c0; reflexivity).
  pose proof (@half_cycle_wraparound unit unit tt run_nop quiet_bus lr0 13 Hkeep)
    as H13.
  pose proof (@half_cycle_wraparound unit unit tt run_nop quiet_bus lr0 16 Hkeep)
    as H16.
  cbv zeta in H13, H16.
  destruct H13 as [Hc13 Hp13]. destruct H16 as [Hc16 _].
  assert (Hn : (1 <= 13)%nat) by lia.
  destruct (Hp13 Hn) as [_ Hlow].
  split; [exact Hkeep |]. split; [exact Hc13 |]. split; [| exact Hc16].
  apply Hlow. rewrite Hc13. change (Z.of_nat 13 mod 8) with 5. lia.
Defined.

(** C8 as the spec states it fails on the phase pin: the core in
    [ST_TEST] at half-cycle 3 has [phi] high, and one more tick pulls it
    low. *)
Lemma test_tick_changes_phi :
  state test_at_3 = ST_TEST /\
  ck_half_cycle test_at_3 = 3 /\
  phi (pins test_at_3) = true /\
  phi (pins (cpu_clock run_nop test_at_3)) = false.
Proof. vm_compute. repeat split. Qed.

Lemma test_tick_frame_witness :
  state test_at_3 = ST_TEST /\
  fst (cpu_clock_calls run_nop test_at_3) = [Call_update_clocks] /\
  a (pins (cpu_clock run_nop test_at_3)) = a (pins test_at_3) /\
  pc (cpu_clock run_nop test_at_3) = pc test_at_3 /\
  ck_half_cycle (cpu_clock run_nop test_at_3) = 4.
Proof.
  assert (Hst : state test_at_3 = ST_TEST) by reflexivity.
  pose proof (@test_tick_frame unit unit run_nop test_at_3 Hst) as H.
  cbv zeta in H.
  destruct H as (Hcalls & (Ha & _) & (_ & _ & _ & Hpc & _) & Hhc & _).
  split; [exact Hst |]. split; [exact Hcalls |]. split; [exact Ha |].
  split; [exact Hpc | exact Hhc].
Defined.

Lemma dispatch_table_complete_witness :
  0 <= 0xc3 <= 255 /\
  exists h : cpu_instruction_t,
    table_lookup 0xc3 = Some h /\ In h instruction_table.
Proof.
  assert (Hop : 0 <= 0xc3 <= 255) by lia.
  split; [exact Hop |].
  exact (proj2 dispatch_table_complete 0xc3 Hop).
Defined.

(** [run_nop] is a family of one-cycle handlers, so the prefetch run above
    applies to it. *)
Lemma run_nop_one_cycle : one_cycle_handlers run_nop.
Proof. intros h c. unfold fetch_state_kept. repeat split. Qed.

(** A memory on the bus: while the read strobe is low it answers with the
    byte at the address on A0-A14. *)
Definition rom_bus (mem : Z -> Z) (k : nat) (p : pins_t) : pins_t :=
  if rd p then p else set_d p (u8 (mem (Z.land (a p) 0x7fff))).

Definition sample_rom (addr : Z) : Z :=
  if addr =? 0x0100 then 0x00 else if addr =? 0x0101 then 0x3e else 0xff.

(** The spec's fetch/execute scenario: from [pc = 0x0100] with a no-op at
    0x0100, one fetch (8 ticks) and one no-op with its overlapped fetch
    (8 ticks) leave [pc = 0x0102] and the byte at 0x0101 latched. *)
Example fetch_execute_scenario :
  let c := clock_ticks run_nop (rom_bus sample_rom) 16 (set_pc reset0 0x0100) in
  state c = ST_EXECUTE /\ pc c = 0x0102 /\
  instruction_latch c = sample_rom 0x0101 /\ read_ongoing c = false.
Proof. vm_compute. repeat split. Qed.

(** * Concrete runs of the further properties *)

Lemma address_pins_settled_witness :
  ck_half_cycle reset0 = 0 /\
  a (pins (fst (read_ticks 5 (cpu_init_read reset0 0xa150, 0)))) = 0xa150 /\
  a (pins (write_ticks 5 (cpu_init_write reset0 0xa150 0x42))) = 0xa150.
Proof.
  assert (Hhc : ck_half_cycle reset0 = 0) by reflexivity.
  assert (Haddr : 0 <= 0xa150 < 0x10000) by lia.
  assert (Hk : (3 <= 5 <= 8)%nat) by lia.
  split; [exact Hhc |].
  exact (@address_pins_settled unit unit reset0 0xa150 0x42 0 5%nat Hhc Haddr Hk).
Defined.

Lemma read_transaction_pins_witness :
  ck_half_cycle reset0 = 0 /\
  rd (pins (fst (read_ticks 8 (cpu_init_read reset0 0x0150, 0x77)))) = false /\
  wr (pins (fst (read_ticks 8 (cpu_init_read reset0 0x0150, 0x77)))) = true /\
  snd (read_ticks 6 (cpu_init_read reset0 0x0150, 0x77)) = 0x77 /\
  snd (read_ticks 7 (cpu_init_read reset0 0x0150, 0x77)) = 0.
Proof.
  assert (Hhc : ck_half_cycle reset0 = 0) by reflexivity.
  assert (H6 : (1 <= 6 <= 8)%nat) by lia.
  assert (H7 : (1 <= 7 <= 8)%nat) by lia.
  assert (H8 : (1 <= 8 <= 8)%nat) by lia.
  pose proof (@read_transaction_pins unit unit reset0 0x0150 0x77 6%nat Hhc H6)
    as P6.
  pose proof (@read_transaction_pins unit unit reset0 0x0150 0x77 7%nat Hhc H7)
    as P7.
  pose proof (@read_transaction_pins unit unit reset0 0x0150 0x77 8%nat Hhc H8)
    as P8.
  cbv zeta in P6, P7, P8.
  destruct P6 as (_ & _ & _ & Hd6). destruct P7 as (_ & _ & _ & Hd7).
  destruct P8 as (Hrd & Hwr & _).
  split; [exact Hhc |]. split; [exact Hrd |]. split; [exact Hwr |].
  split; [exact Hd6 | exact Hd7].
Defined.

Lemma write_strobe_window_witness :
  ck_half_cycle reset0 = 0 /\
  in_rom (u16 0x0150) || in_ram (u16 0x0150) = true /\
  wr (pins (write_ticks 5 (cpu_init_write reset0 0x0150 0x42))) = false /\
  rd (pins (write_ticks 5 (cpu_init_write reset0 0x0150 0x42))) = true /\
  d (pins (write_ticks 5 (cpu_init_write reset0 0x0150 0x42))) = 0x42 /\
  wr (pins (write_ticks 7 (cpu_init_write reset0 0x0150 0x42))) = true.
Proof.
  assert (Hhc : ck_half_cycle reset0 = 0) by reflexivity.
  assert (Hreg : in_rom (u16 0x0150) || in_ram (u16 0x0150) = true)
    by reflexivity.
  assert (H5 : (1 <= 5 <= 8)%nat) by lia.
  assert (H7 : (1 <= 7 <= 8)%nat) by lia.
  pose proof (@write_strobe_window unit unit reset0 0x0150 0x42 5%nat Hhc H5)
    as P5.
  pose proof (@write_strobe_window unit unit reset0 0x0150 0x42 7%nat Hhc H7)
    as P7.
  cbv zeta in P5, P7.
  destruct P5 as [P5 _]. destruct P7 as [P7 _].
  destruct (P5 Hreg) as (Hwr5 & Hrd5 & Hd5). destruct (P7 Hreg) as (Hwr7 & _).
  split; [exact Hhc |]. split; [exact Hreg |]. split; [exact Hwr5 |].
  split; [exact Hrd5 |]. split; [exact Hd5 | exact Hwr7].
Defined.

Lemma write_read_round_trip_witness :
  ck_half_cycle reset0 = 0 /\
  snd (read_ticks 8
         (cpu_init_read (write_ticks 8 (cpu_init_write reset0 0xa150 0x42))
                        0xa150, 0)) = 0x42 /\
  snd (read_ticks 8
         (cpu_init_read (write_ticks 8 (cpu_init_write reset0 0xff80 0x42))
                        0xff80, 0x77)) = 0.
Proof.
  assert (Hhc : ck_half_cycle reset0 = 0) by reflexivity.
  pose proof (@write_read_round_trip unit unit reset0 0xa150 0x42 0 Hhc) as Pram.
  pose proof (@write_read_round_trip unit unit reset0 0xff80 0x42 0x77 Hhc)
    as Phram.
  cbv zeta in Pram, Phram.
  destruct Pram as (_ & _ & Hram & _). destruct Phram as (_ & _ & _ & Hhram).
  split; [exact Hhc |]. split; [exact (Hram eq_refl) | exact (Hhram eq_refl)].
Defined.


Lemma fetch_run_witness :
  (state (set_pc reset0 0x0100) = ST_FETCH /\
   ck_half_cycle (set_pc reset0 0x0100) = 0 /\
   read_ongoing (set_pc reset0 0x0100) = false) /\
  state (clock_ticks run_busy (rom_bus sample_rom) 7 (set_pc reset0 0x0100))
    = ST_FETCH /\
  state (clock_ticks run_busy (rom_bus sample_rom) 8 (set_pc reset0 0x0100))
    = ST_EXECUTE /\
  pc (clock_ticks run_busy (rom_bus sample_rom) 8 (set_pc reset0 0x0100))
    = 0x0101.
Proof.
  assert (Hst : state (set_pc reset0 0x0100) = ST_FETCH) by reflexivity.
  assert (Hhc : ck_half_cycle (set_pc reset0 0x0100) = 0) by reflexivity.
  assert (Hflag : read_ongoing (set_pc reset0 0x0100) = false) by reflexivity.
  pose proof (@fetch_run unit unit run_busy (rom_bus sample_rom)
                (set_pc reset0 0x0100) Hst Hhc Hflag) as P.
  cbv zeta in P. destruct P as [Hfetch (Hs & _ & _ & Hpc & _)].
  assert (H7 : (7 < 8)%nat) by lia.
  split; [split; [exact Hst | split; [exact Hhc | exact Hflag]] |].
  split; [exact (Hfetch 7%nat H7) |]. split; [exact Hs | exact Hpc].
Defined.

Lemma test_mode_absorbing_witness :
  state (set_state reset0 ST_TEST) = ST_TEST /\
  state (clock_ticks run_nop quiet_bus 11 (set_state reset0 ST_TEST))
    = ST_TEST /\
  pc (clock_ticks run_nop quiet_bus 11 (set_state reset0 ST_TEST)) = 0 /\
  ck_half_cycle (clock_ticks run_nop quiet_bus 11 (set_state reset0 ST_TEST))
    = 3.
Proof.
  assert (Hst : state (set_state reset0 ST_TEST) = ST_TEST) by reflexivity.
  pose proof (@test_mode_absorbing unit unit run_nop quiet_bus
                (set_state reset0 ST_TEST) 11 Hst) as P.
  cbv zeta in P. destruct P as (Hs & (Hpc & _) & Hclock).
  assert (Hhc : 0 <= ck_half_cycle (set_state reset0 ST_TEST) < 8)
    by (simpl; lia).
  split; [exact Hst |]. split; [exact Hs |]. split; [exact Hpc |].
  exact (Hclock Hhc).
Defined.

Lemma rom_bus_memory (mem : Z -> Z) : memory_on_bus (rom_bus mem) mem.
Proof. intros k p. reflexivity. Qed.

Lemma fetch_from_memory_witness :
  memory_on_bus (rom_bus sample_rom) sample_rom /\
  0 <= pc (set_pc reset0 0x0101) < 0x8000 /\
  instruction_latch
    (clock_ticks run_nop (rom_bus sample_rom) 8 (set_pc reset0 0x0101)) = 0x3e.
Proof.
  assert (Hpc : 0 <= pc (set_pc reset0 0x0101) < 0x8000) by (simpl; lia).
  split; [exact (rom_bus_memory sample_rom) |]. split; [exact Hpc |].
  exact (proj1 (@fetch_from_memory unit unit run_nop (rom_bus sample_rom)
                  sample_rom (set_pc reset0 0x0101)
                  (rom_bus_memory sample_rom) eq_refl eq_refl eq_refl Hpc)).
Defined.

Lemma ld_block_decode_witness :
  0x40 <= 0x7e <= 0x7f /\ dispatch 0x7e = ld_r_hl /\
  0x40 <= 0x70 <= 0x7f /\ dispatch 0x70 = ld_hl_r.
Proof.
  assert (H1 : 0x40 <= 0x7e <= 0x7f) by lia.
  assert (H2 : 0x40 <= 0x70 <= 0x7f) by lia.
  split; [exact H1 |]. split; [exact (@ld_block_decode 0x7e H1) |].
  split; [exact H2 | exact (@ld_block_decode 0x70 H2)].
Defined.

Lemma prefetch_overlap_run_witness :
  one_cycle_handlers run_nop /\
  (state execute_at_0 = ST_EXECUTE /\ ck_half_cycle execute_at_0 = 0 /\
   read_ongoing execute_at_0 = false) /\
  fst (cpu_clock_calls run_nop
         (set_pins execute_at_0 (late_bus 0 (pins execute_at_0)))) =
    [Call_instruction 0 nop; Call_init_read 1; Call_handle_read;
     Call_update_clocks] /\
  state (clock_ticks run_nop late_bus 5 execute_at_0) = ST_EXECUTE /\
  a_latch (clock_ticks run_nop late_bus 5 execute_at_0) = 1 /\
  pc (clock_ticks run_nop late_bus 8 execute_at_0) = 2 /\
  read_ongoing (clock_ticks run_nop late_bus 8 execute_at_0) = false /\
  instruction_latch (clock_ticks run_nop late_bus 8 execute_at_0) = 0xc3.
Proof.
  assert (Hst : state execute_at_0 = ST_EXECUTE) by reflexivity.
  assert (Hhc : ck_half_cycle execute_at_0 = 0) by reflexivity.
  assert (Hflag : read_ongoing execute_at_0 = false) by reflexivity.
  pose proof (@prefetch_overlap_run unit unit run_nop late_bus execute_at_0
                run_nop_one_cycle Hst Hhc Hflag) as P.
  cbv zeta in P. destruct P as (Hcalls & Hstate & Hread & _ & Hlatch).
  assert (H5 : (1 <= 5 <= 8)%nat) by lia.
  assert (H8 : (1 <= 8 <= 8)%nat) by lia.
  assert (L5 : (5 <= 8)%nat) by lia.
  destruct (Hread 5%nat H5) as (Ha5 & _).
  destruct (Hread 8%nat H8) as (_ & Hpc8 & Hr8).
  split; [exact run_nop_one_cycle |].
  split; [split; [exact Hst | split; [exact Hhc | exact Hflag]] |].
  split; [exact Hcalls |]. split; [exact (Hstate 5%nat L5) |].
  split; [exact Ha5 |]. split; [exact Hpc8 |]. split; [exact Hr8 |].
  exact Hlatch.
Defined.
